(** * The identity service of sso: internal/services/auth/auth.go

    A shallow embedding of package [auth].  The six methods of [*Auth]
    are programs over the calls they make on their collaborators (the four
    storage interfaces, bcrypt, the token issuer and the logger); a program
    is run against any implementation of the interfaces, and the calls it
    performs can be listed.  The storage packages are not part of the
    sources: the interfaces are the ones declared in auth.go, and a
    reference store written after section 6 of the specification
    implements them where a property needs a concrete store. *)

From stdpp Require Import base gmap strings list.
From Stdlib Require Import ZArith Strings.Byte.

Local Open Scope string_scope.
Local Open Scope Z_scope.

(** ** Records of package models *)

Module models.

(** Modelled from the spec: package sso/internal/domain/models is not in
    the sources.  Section 3 and the fetch-user-by-email row of section 6
    give a user record an identifier, an email, a password hash and the
    role names; auth.go reads the field [PassHash] (line 87). *)
Record User : Type := mkUser {
  User_ID : Z;
  Email : string;
  PassHash : list byte;
  Roles : list string
}.

(** Modelled from the spec: the fetch-app-by-id row of section 6 gives an
    application record an identifier, a name and a secret. *)
Record App : Type := mkApp {
  App_ID : Z;
  Name : string;
  Secret : string
}.

Definition zeroUser : User := mkUser 0 "" [] [].
Definition zeroApp : App := mkApp 0 "" "".

End models.

(** ** Error values *)

(** The package-level error variables of auth.go, lines 16-22.  Each is made
    by one [errors.New], so Go tells them apart by identity. *)
Inductive sentinel : Set :=
| ErrInvalidCredentials
| ErrUserExists
| ErrUserNotFound
| ErrAppExist
| ErrInvalidRoles.

Module storage.

(** The error variables of package sso/internal/services/storage that
    auth.go names (lines 79, 126, 166, 197, 218, 239; [ErrAppNotFound] in
    the disabled block at line 146).  The package is not in the sources:
    only the identity of these values is known, not their texts. *)
Inductive sentinel : Set :=
| ErrUserNotFound
| ErrUserExist
| ErrAppExist
| ErrAppNotFound.

End storage.

(** A Go [error] as auth.go builds and inspects it.
    - [Own s] and [Stored s] are the error variables of the two packages;
    - [Foreign t] is an error made outside this repository (a database
      driver, bcrypt, the JWT library), known by its text [t];
    - [Wrapf op e] is [fmt.Errorf("%s: %w", op, e)]: its [Unwrap] is [e];
    - [Errorf t] is a [fmt.Errorf] whose format has no [%w] verb: a fresh
      error with text [t] and no [Unwrap]. *)
Inductive error : Set :=
| Own (s : sentinel)
| Stored (s : storage.sentinel)
| Foreign (text : string)
| Wrapf (op : string) (inner : error)
| Errorf (text : string).

Coercion Own : sentinel >-> error.
Coercion Stored : storage.sentinel >-> error.

#[export] Instance sentinel_eq_dec : EqDecision sentinel.
Proof. solve_decision. Defined.

#[export] Instance storage_sentinel_eq_dec : EqDecision storage.sentinel.
Proof. solve_decision. Defined.

#[export] Instance error_eq_dec : EqDecision error.
Proof. solve_decision. Defined.

(** [errors.Unwrap]. *)
Definition Unwrap (err : error) : option error :=
  match err with
  | Wrapf _ inner => Some inner
  | _ => None
  end.

(** [errors.Is(err, target)]: [err] or an error down its [Unwrap] chain is
    [target].  None of the error types here has an [Is] method. *)
Fixpoint errors_Is (err target : error) : bool :=
  if bool_decide (err = target) then true
  else match err with
       | Wrapf _ inner => errors_Is inner target
       | _ => false
       end.

(** The texts given to [errors.New] at auth.go lines 17-21. *)
Definition sentinel_text (s : sentinel) : string :=
  match s with
  | ErrInvalidCredentials => "invalid credentials"
  | ErrUserExists => "user already exist"
  | ErrUserNotFound => "user not found"
  | ErrAppExist => "app already exist"
  | ErrInvalidRoles => "invalid roles"
  end.

(** The method [Error()]; the texts of the storage package's variables are
    a parameter. *)
Fixpoint Error (storage_text : storage.sentinel → string) (err : error) : string :=
  match err with
  | Own s => sentinel_text s
  | Stored s => storage_text s
  | Foreign t => t
  | Wrapf op inner => op ++ ": " ++ Error storage_text inner
  | Errorf t => t
  end.

(** ** Log records *)

Module slog.

Inductive Level : Set := LevelInfo | LevelError.

(** [a.log], the logger handed to [NewAuth], or the process-wide default
    logger that the package-level [slog.With] starts from. *)
Inductive Sink : Set := AuthLogger | Default.

(** [slog.String(key, value)]. *)
Definition Attr : Set := (string * string)%type.

Record Logger : Set := mkLogger { sink : Sink; bound : list Attr }.

(** One record handed to the handler of a logger. *)
Record Record_ : Set := mkRecord {
  to : Sink;
  level : Level;
  msg : string;
  attrs : list Attr
}.

(** [l.With(args...)]. *)
Definition With (l : Logger) (args : list Attr) : Logger :=
  mkLogger (sink l) (bound l ++ args)%list.

End slog.

(** ** Programs over collaborator calls *)

(** The calls auth.go makes outside itself: the methods of the interfaces
    [UserSaver], [UserProvider], [AppSaver], [AppProvider] (lines 33-50)
    through the fields of [Auth], the two bcrypt functions, [NewToken] of
    package jwtlocal, and the emission of a log record.  The [ctx] argument
    is handed on unchanged by every method and is left out. *)
Inductive call : Type :=
| usrSaver_SaveUser (email : string) (passHash : list byte)
| usrProvider_DeleteUser (email : string)
| usrProvider_User (email : string)
| usrProvider_SetRoles (email : string) (roles : list string)
| usrProvider_GetRoles (email : string)
| appSaver_SaveApp (name secret : string)
| appProvider_App (appID : Z)
| bcrypt_CompareHashAndPassword (hashedPassword password : list byte)
| bcrypt_GenerateFromPassword (password : list byte) (cost : Z)
| jwtlocal_NewToken (user : models.User) (app : models.App) (duration : Z)
| slog_emit (r : slog.Record_).

(** What each call gives back: the Go result tuple, with [None] for a nil
    error. *)
Definition resp (c : call) : Type :=
  match c with
  | usrSaver_SaveUser _ _ => (Z * option error)%type
  | usrProvider_DeleteUser _ => option error
  | usrProvider_User _ => (models.User * option error)%type
  | usrProvider_SetRoles _ _ => option error
  | usrProvider_GetRoles _ => (list string * option error)%type
  | appSaver_SaveApp _ _ => (Z * option error)%type
  | appProvider_App _ => (models.App * option error)%type
  | bcrypt_CompareHashAndPassword _ _ => option error
  | bcrypt_GenerateFromPassword _ _ => (list byte * option error)%type
  | jwtlocal_NewToken _ _ _ => (string * option error)%type
  | slog_emit _ => unit
  end.

Inductive prog (A : Type) : Type :=
| Ret (a : A)
| Vis (c : call) (k : resp c → prog A).

Arguments Ret {A} a.
Arguments Vis {A} c k.

Fixpoint bind {A B : Type} (f : A → prog B) (p : prog A) : prog B :=
  match p with
  | Ret a => f a
  | Vis c k => Vis c (λ x, bind f (k x))
  end.

#[export] Instance prog_ret : MRet prog := @Ret.
#[export] Instance prog_bind : MBind prog := @bind.

Definition perform (c : call) : prog (resp c) := Vis c Ret.

(** [log.Info(msg, args...)] and [log.Error(msg, args...)]. *)
Definition Info (log : slog.Logger) (msg : string) (args : list slog.Attr) : prog unit :=
  perform (slog_emit (slog.mkRecord (slog.sink log) slog.LevelInfo msg (slog.bound log ++ args)%list)).

Definition Error_ (log : slog.Logger) (msg : string) (args : list slog.Attr) : prog unit :=
  perform (slog_emit (slog.mkRecord (slog.sink log) slog.LevelError msg (slog.bound log ++ args)%list)).

(** ** The methods of [*Auth] *)

Module bcrypt.
(** [bcrypt.DefaultCost] of golang.org/x/crypto/bcrypt. *)
Definition DefaultCost : Z := 10.
End bcrypt.

Module Auth.

(** The struct [Auth] (auth.go lines 24-31).  The four interface fields
    [usrSaver], [usrProvider], [appProvider], [appSaver] are what the
    calls of a program are run against; the record keeps the two fields
    that are plain data. *)
Record t : Set := New { log : slog.Logger; tokenTTL : Z }.

(** auth.go lines 66-106. *)
Definition Login (a : t) (email password : string) (appID : Z)
  : prog (string * option error) :=
  let op := "auth.Login" in
  let log := slog.With (log a) [("op", op); ("email", email)] in
  Info log "attempting to login user" [];;
  '(user, err) ← perform (usrProvider_User email);
  match err with
  | Some err =>
      if errors_Is err storage.ErrUserNotFound then
        Error_ log "not corrected login/password 1" [];;
        mret ("", Some (Wrapf op ErrInvalidCredentials))
      else
        Error_ log "failed to get user" [];;
        mret ("", Some (Wrapf op err))
  | None =>
      err ← perform (bcrypt_CompareHashAndPassword
                       (models.PassHash user) (String.list_byte_of_string password));
      match err with
      | Some _ =>
          Error_ log (String.string_of_list_byte (models.PassHash user)) [];;
          mret ("", Some (Wrapf op ErrInvalidCredentials))
      | None =>
          '(app, err) ← perform (appProvider_App appID);
          match err with
          | Some err => mret ("", Some (Wrapf op err))
          | None =>
              Info log "successfully login user" [];;
              '(token, err) ← perform (jwtlocal_NewToken user app (tokenTTL a));
              match err with
              | Some err =>
                  Error_ log "cannot generate token" [];;
                  mret ("", Some (Wrapf op err))
              | None => mret (token, None)
              end
          end
      end
  end.

(** The loop of auth.go lines 187-192: the first role outside the three
    names ends the method; [rest] is the code after the loop.  The
    format at line 190 is ["%s: %s"], so the error is a fresh one whose
    text ends in the text of [ErrInvalidRoles]. *)
Fixpoint range_roles (log : slog.Logger) (op : string) (roles : list string)
    (rest : prog (option error)) : prog (option error) :=
  match roles with
  | [] => rest
  | role :: roles' =>
      if negb (String.eqb role "admin") && negb (String.eqb role "user")
         && negb (String.eqb role "manager")
      then
        Error_ log "invalid role" [];;
        mret (Some (Errorf (op ++ ": " ++ sentinel_text ErrInvalidRoles)))
      else range_roles log op roles' rest
  end.

(** auth.go lines 179-205. *)
Definition SetRoles (a : t) (email : string) (roles : list string)
  : prog (option error) :=
  let op := "auth.SetRoles" in
  let log := slog.With (log a) [("op", op); ("email", email)] in
  range_roles log op roles (
    err ← perform (usrProvider_SetRoles email roles);
    match err with
    | Some err =>
        Error_ log "failed to set roles" [];;
        if errors_Is err storage.ErrUserNotFound then
          mret (Some (Wrapf op ErrInvalidCredentials))
        else mret (Some (Wrapf op err))
    | None =>
        Info log "successfully set roles for user" [];;
        mret None
    end).

(** auth.go lines 207-226; the nil slice is the empty list. *)
Definition GetRoles (a : t) (email : string) : prog (list string * option error) :=
  let op := "auth.GetRoles" in
  let log := slog.With (log a) [("op", op); ("email", email)] in
  '(roles, err) ← perform (usrProvider_GetRoles email);
  match err with
  | Some err =>
      Error_ log "failed to get roles" [];;
      if errors_Is err storage.ErrUserNotFound then
        mret ([], Some (Wrapf op ErrInvalidCredentials))
      else mret ([], Some (Wrapf op err))
  | None =>
      Info log "successfully got roles for user" [];;
      mret (roles, None)
  end.

(** auth.go lines 228-246; the constant [op] at line 229 is
    ["auth.GetRoles"]. *)
Definition DeleteUser (a : t) (email : string) : prog (option error) :=
  let op := "auth.GetRoles" in
  let log := slog.With (log a) [("op", op); ("email", email)] in
  err ← perform (usrProvider_DeleteUser email);
  match err with
  | Some err =>
      Error_ log "failed delete user" [];;
      if errors_Is err storage.ErrUserNotFound then
        mret (Some (Wrapf op ErrInvalidCredentials))
      else mret (Some (Wrapf op err))
  | None => mret None
  end.

Section Texts.

(** The texts of the storage package's error variables, which the two
    methods below put into a log message through [err.Error()]. *)
Variable storage_text : storage.sentinel → string.

(** auth.go lines 108-137. *)
Definition RegisterNewUser (a : t) (email password : string) : prog (Z * option error) :=
  let op := "auth.RegisterNewUser" in
  let log := slog.With (log a) [("op", op); ("email", email)] in
  Info log "registering new user" [];;
  '(passHash, err) ← perform (bcrypt_GenerateFromPassword
                                (String.list_byte_of_string password) bcrypt.DefaultCost);
  match err with
  | Some err =>
      Error_ log "failed to generate password hash" [];;
      mret (0, Some (Wrapf op err))
  | None =>
      '(id, err) ← perform (usrSaver_SaveUser email passHash);
      match err with
      | Some err =>
          if errors_Is err storage.ErrUserExist then
            Error_ log "user already exist" [];;
            mret (0, Some (Wrapf op ErrUserExists))
          else
            Error_ log ("failed to save user: " ++ Error storage_text err) [];;
            mret (0, Some (Wrapf op err))
      | None =>
          Info log "successfully register user" [];;
          mret (id, None)
      end
  end.

(** auth.go lines 159-177; the logger is made by the package-level
    [slog.With], not from [a.log], and [op] is ["auth.NewApp"]. *)
Definition CreateApp (a : t) (name secret : string) : prog (Z * option error) :=
  let op := "auth.NewApp" in
  let log := slog.With (slog.mkLogger slog.Default []) [("op", op); ("username", name)] in
  '(appId, err) ← perform (appSaver_SaveApp name secret);
  match err with
  | Some err =>
      if errors_Is err storage.ErrAppExist then
        Error_ log "app already exist" [];;
        mret (0, Some (Wrapf op ErrAppExist))
      else
        Error_ log ("error adding a new app to the database: " ++ Error storage_text err) [];;
        mret (0, Some (Wrapf op err))
  | None =>
      Info log "success create new app" [("name", name)];;
      mret (appId, None)
  end.

End Texts.

End Auth.

(** ** Running a program against collaborators *)

(** The interfaces of auth.go lines 33-50, as state-passing methods over
    the state [S] of whatever implements them.  Any method may change that
    state: nothing in an interface makes a fetch read-only. *)
Module UserSaver.
Class t (S : Type) : Type := {
  SaveUser : string → list byte → S → (Z * option error) * S
}.
End UserSaver.

Module UserProvider.
Class t (S : Type) : Type := {
  DeleteUser : string → S → option error * S;
  User : string → S → (models.User * option error) * S;
  SetRoles : string → list string → S → option error * S;
  GetRoles : string → S → (list string * option error) * S
}.
End UserProvider.

Module AppSaver.
Class t (S : Type) : Type := {
  SaveApp : string → string → S → (Z * option error) * S
}.
End AppSaver.

Module AppProvider.
Class t (S : Type) : Type := {
  App : Z → S → (models.App * option error) * S
}.
End AppProvider.

(** The functions called from outside the interfaces.  Comparing a hash
    with a password is a function of its arguments; generating a hash draws
    a salt and minting a token reads the clock, so both thread a state [R]
    of the process. *)
Module Primitives.
Class t (R : Type) : Type := {
  CompareHashAndPassword : list byte → list byte → option error;
  GenerateFromPassword : list byte → Z → R → (list byte * option error) * R;
  NewToken : models.User → models.App → Z → R → (string * option error) * R
}.
End Primitives.

Class Collaborators (S R : Type) : Type := {
  usrSaver :: UserSaver.t S;
  usrProvider :: UserProvider.t S;
  appSaver :: AppSaver.t S;
  appProvider :: AppProvider.t S;
  primitives :: Primitives.t R
}.

(** What a run can change: the state behind the storage interfaces, the
    state of the process, and the records written to the log so far. *)
Record World (S R : Type) : Type := mkWorld {
  store : S;
  sys : R;
  out : list slog.Record_
}.

Arguments mkWorld {S R} _ _ _.
Arguments store {S R} _.
Arguments sys {S R} _.
Arguments out {S R} _.

Section Run.

Context {S R : Type} `{!Collaborators S R}.

Definition on_store {X : Type} (f : S → X * S) (w : World S R) : X * World S R :=
  let '(x, s) := f (store w) in (x, mkWorld s (sys w) (out w)).

Definition on_sys {X : Type} (f : R → X * R) (w : World S R) : X * World S R :=
  let '(x, r) := f (sys w) in (x, mkWorld (store w) r (out w)).

Definition answer (c : call) (w : World S R) : resp c * World S R :=
  match c return resp c * World S R with
  | usrSaver_SaveUser email passHash => on_store (UserSaver.SaveUser email passHash) w
  | usrProvider_DeleteUser email => on_store (UserProvider.DeleteUser email) w
  | usrProvider_User email => on_store (UserProvider.User email) w
  | usrProvider_SetRoles email roles => on_store (UserProvider.SetRoles email roles) w
  | usrProvider_GetRoles email => on_store (UserProvider.GetRoles email) w
  | appSaver_SaveApp name secret => on_store (AppSaver.SaveApp name secret) w
  | appProvider_App appID => on_store (AppProvider.App appID) w
  | bcrypt_CompareHashAndPassword h p => (Primitives.CompareHashAndPassword h p, w)
  | bcrypt_GenerateFromPassword p cost => on_sys (Primitives.GenerateFromPassword p cost) w
  | jwtlocal_NewToken user app d => on_sys (Primitives.NewToken user app d) w
  | slog_emit r => (tt, mkWorld (store w) (sys w) (out w ++ [r])%list)
  end.

(** The result of a program and the world it leaves. *)
Fixpoint run {A : Type} (p : prog A) (w : World S R) : A * World S R :=
  match p with
  | Ret a => (a, w)
  | Vis c k => let '(x, w') := answer c w in run (k x) w'
  end.

(** The calls a program performs, in order. *)
Fixpoint calls {A : Type} (p : prog A) (w : World S R) : list call :=
  match p with
  | Ret _ => []
  | Vis c k => let '(x, w') := answer c w in c :: calls (k x) w'
  end.

End Run.

(** The calls that go to the storage interfaces, and among them the ones
    that section 6 of the specification lists as changing stored data. *)
Definition is_store_call (c : call) : bool :=
  match c with
  | usrSaver_SaveUser _ _ | usrProvider_DeleteUser _ | usrProvider_User _
  | usrProvider_SetRoles _ _ | usrProvider_GetRoles _
  | appSaver_SaveApp _ _ | appProvider_App _ => true
  | _ => false
  end.

Definition is_store_write (c : call) : bool :=
  match c with
  | usrSaver_SaveUser _ _ | usrProvider_DeleteUser _
  | usrProvider_SetRoles _ _ | appSaver_SaveApp _ _ => true
  | _ => false
  end.

(** The fixed role vocabulary of section 3 of the specification. *)
Definition vocabulary : list string := ["admin"; "user"; "manager"].

(** The four caller-facing kinds of section 7 of the specification, as a
    caller of package auth tells them apart: with [errors.Is] against the
    error variables of lines 16-22; what matches none of them is
    [Internal]. *)
Inductive kind : Set := InvalidCredentials | AlreadyExists | InvalidRoles | Internal.

Definition kind_of (err : error) : kind :=
  if errors_Is err ErrInvalidCredentials then InvalidCredentials
  else if errors_Is err ErrUserExists || errors_Is err ErrAppExist then AlreadyExists
  else if errors_Is err ErrInvalidRoles then InvalidRoles
  else Internal.

(** An error that holds none of package auth's error variables: every error
    of the storage packages, which package auth imports and which therefore
    cannot name auth's variables, and every error of a library. *)
Definition from_outside (err : error) : Prop :=
  ∀ s : sentinel, errors_Is err (Own s) = false.

(** ** A reference store *)

#[export] Instance byte_eq_dec : EqDecision byte.
Proof.
  intros x y. destruct (Byte.eqb x y) eqn:E.
  - left. by apply byte_dec_bl.
  - right. by apply eqb_false.
Defined.

Module refstore.

(** Modelled from the spec: the storage packages behind the interfaces
    are not in the sources.  Section 3 keeps, per user, an identifier
    assigned by storage, the password hash and a set of role names, with
    the email as the unique lookup key; per application an identifier
    assigned by storage, a name and a secret. *)
Record Row : Type := mkRow {
  uid : Z;
  hash : list byte;
  roles : gset string
}.

Record t : Type := mk {
  users : gmap string Row;
  apps : list models.App;
  last_uid : Z;
  last_appid : Z
}.

Definition empty : t := mk ∅ [] 0 0.

Definition to_user (email : string) (r : Row) : models.User :=
  models.mkUser (uid r) email (hash r) (elements (roles r)).

(** Modelled from the spec: the save-user row of section 6; the failure
    signal email-already-exists is the value auth.go tests for at line
    126. *)
Definition SaveUser (email : string) (passHash : list byte) (s : t)
  : (Z * option error) * t :=
  match users s !! email with
  | Some _ => ((0, Some (Stored storage.ErrUserExist)), s)
  | None =>
      let id := last_uid s + 1 in
      ((id, None),
       mk (<[email := mkRow id passHash ∅]> (users s)) (apps s) id (last_appid s))
  end.

(** Modelled from the spec: the fetch-user-by-email row of section 6;
    not-found is the value auth.go tests for at line 79. *)
Definition User (email : string) (s : t) : (models.User * option error) * t :=
  match users s !! email with
  | Some r => ((to_user email r, None), s)
  | None => ((models.zeroUser, Some (Stored storage.ErrUserNotFound)), s)
  end.

(** Modelled from the spec: the delete-user row of section 6. *)
Definition DeleteUser (email : string) (s : t) : option error * t :=
  match users s !! email with
  | Some _ => (None, mk (delete email (users s)) (apps s) (last_uid s) (last_appid s))
  | None => (Some (Stored storage.ErrUserNotFound), s)
  end.

(** Modelled from the spec: the set-roles row of section 6, which
    section 4.4 describes as replacing the user's role set. *)
Definition SetRoles (email : string) (rs : list string) (s : t) : option error * t :=
  match users s !! email with
  | Some r =>
      (None,
       mk (<[email := mkRow (uid r) (hash r) (list_to_set rs)]> (users s))
          (apps s) (last_uid s) (last_appid s))
  | None => (Some (Stored storage.ErrUserNotFound), s)
  end.

(** Modelled from the spec: the get-roles row of section 6. *)
Definition GetRoles (email : string) (s : t) : (list string * option error) * t :=
  match users s !! email with
  | Some r => ((elements (roles r), None), s)
  | None => (([], Some (Stored storage.ErrUserNotFound)), s)
  end.

(** Modelled from the spec: the save-app row of section 6, with the
    conflict on the name of section 4.3. *)
Definition SaveApp (name secret : string) (s : t) : (Z * option error) * t :=
  if existsb (λ a, String.eqb (models.Name a) name) (apps s)
  then ((0, Some (Stored storage.ErrAppExist)), s)
  else
    let id := last_appid s + 1 in
    ((id, None), mk (users s) (apps s ++ [models.mkApp id name secret])%list (last_uid s) id).

(** Modelled from the spec: the fetch-app-by-id row of section 6. *)
Definition App (appID : Z) (s : t) : (models.App * option error) * t :=
  match find (λ a, Z.eqb (models.App_ID a) appID) (apps s) with
  | Some a => ((a, None), s)
  | None => ((models.zeroApp, Some (Stored storage.ErrAppNotFound)), s)
  end.

(** Stand-ins for bcrypt and the token issuer, enough to run a program
    on concrete data: the hash of a password is the password behind a
    fixed prefix, and a token names the user and the application. *)
Definition prefix : list byte := String.list_byte_of_string "$2a$10$".

Definition CompareHashAndPassword (h p : list byte) : option error :=
  if bool_decide (h = (prefix ++ p)%list) then None
  else Some (Foreign "crypto/bcrypt: hashedPassword is not the hash of the given password").

Definition GenerateFromPassword (p : list byte) (cost : Z) (r : unit)
  : (list byte * option error) * unit :=
  (((prefix ++ p)%list, None), r).

Definition NewToken (u : models.User) (a : models.App) (d : Z) (r : unit)
  : (string * option error) * unit :=
  ((models.Email u ++ "@" ++ models.Name a, None), r).

#[global] Instance collaborators : Collaborators t unit := {|
  usrSaver := {| UserSaver.SaveUser := SaveUser |};
  usrProvider := {| UserProvider.DeleteUser := DeleteUser;
                    UserProvider.User := User;
                    UserProvider.SetRoles := SetRoles;
                    UserProvider.GetRoles := GetRoles |};
  appSaver := {| AppSaver.SaveApp := SaveApp |};
  appProvider := {| AppProvider.App := App |};
  primitives := {| Primitives.CompareHashAndPassword := CompareHashAndPassword;
                   Primitives.GenerateFromPassword := GenerateFromPassword;
                   Primitives.NewToken := NewToken |}
|}.

Definition world (s : t) : World t unit := mkWorld s tt [].

End refstore.

(** The service used in the examples, and a store holding one user and one
    application. *)
Definition svc : Auth.t := Auth.New (slog.mkLogger slog.AuthLogger []) 3600.

Definition no_text : storage.sentinel → string := λ _, "".

Definition one_user : refstore.t :=
  (refstore.SaveApp "shop" "s3cret"
     (refstore.SaveUser "a@x.com"
        (refstore.prefix ++ String.list_byte_of_string "pw123")%list refstore.empty).2).2.

(** A store that is out of reach: every method of the four interfaces
    fails with the same driver error.  It stands for the "any other storage
    failure" of section 7 in the examples. *)
Module outage.

Inductive t : Set := down.

Definition failure : error := Foreign "database is locked".

#[global] Instance collaborators : Collaborators t unit := {|
  usrSaver := {| UserSaver.SaveUser := λ _ _ s, ((0, Some failure), s) |};
  usrProvider := {| UserProvider.DeleteUser := λ _ s, (Some failure, s);
                    UserProvider.User := λ _ s, ((models.zeroUser, Some failure), s);
                    UserProvider.SetRoles := λ _ _ s, (Some failure, s);
                    UserProvider.GetRoles := λ _ s, (([], Some failure), s) |};
  appSaver := {| AppSaver.SaveApp := λ _ _ s, ((0, Some failure), s) |};
  appProvider := {| AppProvider.App := λ _ s, ((models.zeroApp, Some failure), s) |};
  primitives := {| Primitives.CompareHashAndPassword := refstore.CompareHashAndPassword;
                   Primitives.GenerateFromPassword := refstore.GenerateFromPassword;
                   Primitives.NewToken := refstore.NewToken |}
|}.

Definition world : World t unit := mkWorld down tt [].

End outage.

(** The shape shared by the failure branches of the six methods (lines
    79-84, 126-131, 166-171, 197-200, 218-221, 239-242): the error of the
    collaborator is put under the label of the method, after being replaced
    by the error variable [own] of package auth when it is the storage
    variable [target]. *)
Definition relabel (op : string) (target : storage.sentinel) (own : sentinel)
    (e : error) : error :=
  Wrapf op (if errors_Is e target then Own own else e).

(** [NewAuth] (auth.go lines 52-64): the logger and the time-to-live go
    into the struct as they are; the four interface arguments become the
    collaborators a program is run against. *)
Definition NewAuth (log : slog.Logger) (tokenTTL : Z) : Auth.t := Auth.New log tokenTTL.

(** The log records among the calls of a run, and the other calls. *)
Definition emitted (cs : list call) : list slog.Record_ :=
  flat_map (λ c, match c with slog_emit r => [r] | _ => [] end) cs.

Definition is_emit (c : call) : bool :=
  match c with slog_emit _ => true | _ => false end.

Definition outward (cs : list call) : list call :=
  List.filter (λ c, negb (is_emit c)) cs.

(** A store written inside package auth, as a test double would be: its
    save of a user fails with an error that wraps one of the error
    variables of auth.go. *)
Module mock.

Inductive t : Set := up.

Definition failure : error := Wrapf "mock.SaveUser" ErrInvalidCredentials.

#[global] Instance collaborators : Collaborators t unit := {|
  usrSaver := {| UserSaver.SaveUser := λ _ _ s, ((0, Some failure), s) |};
  usrProvider := {| UserProvider.DeleteUser := λ _ s, (None, s);
                    UserProvider.User := λ _ s, ((models.zeroUser, None), s);
                    UserProvider.SetRoles := λ _ _ s, (None, s);
                    UserProvider.GetRoles := λ _ s, (([], None), s) |};
  appSaver := {| AppSaver.SaveApp := λ _ _ s, ((0, None), s) |};
  appProvider := {| AppProvider.App := λ _ s, ((models.zeroApp, None), s) |};
  primitives := {| Primitives.CompareHashAndPassword := refstore.CompareHashAndPassword;
                   Primitives.GenerateFromPassword := refstore.GenerateFromPassword;
                   Primitives.NewToken := refstore.NewToken |}
|}.

Definition world : World t unit := mkWorld up tt [].

End mock.

(** Collaborators whose bcrypt refuses every password, as the library does
    for one longer than 72 bytes; the store is the one that is out of
    reach. *)
Module nohash.

Inductive t : Set := idle.

Definition failure : error := Foreign "bcrypt: password length exceeds 72 bytes".

#[global] Instance collaborators : Collaborators outage.t t := {|
  usrSaver := {| UserSaver.SaveUser := λ _ _ s, ((0, Some outage.failure), s) |};
  usrProvider := {| UserProvider.DeleteUser := λ _ s, (Some outage.failure, s);
                    UserProvider.User := λ _ s, ((models.zeroUser, Some outage.failure), s);
                    UserProvider.SetRoles := λ _ _ s, (Some outage.failure, s);
                    UserProvider.GetRoles := λ _ s, (([], Some outage.failure), s) |};
  appSaver := {| AppSaver.SaveApp := λ _ _ s, ((0, Some outage.failure), s) |};
  appProvider := {| AppProvider.App := λ _ s, ((models.zeroApp, Some outage.failure), s) |};
  primitives := {| Primitives.CompareHashAndPassword := refstore.CompareHashAndPassword;
                   Primitives.GenerateFromPassword := λ _ _ r, (([], Some failure), r);
                   Primitives.NewToken := λ _ _ _ r, (("", Some failure), r) |}
|}.

Definition world : World outage.t t := mkWorld outage.down idle [].

End nohash.

(** A record that goes to the logger of the service and carries its bound
    attributes followed by the label and the email, and nothing else. *)
Definition service_record (a : Auth.t) (label email : string) (r : slog.Record_) : Prop :=
  slog.to r = slog.sink (Auth.log a)
  ∧ slog.attrs r = (slog.bound (Auth.log a) ++ [("op", label); ("email", email)])%list.

(** ** Package config *)

Module config.

(** The structs [Config] and [GRPCConfig]; a [time.Duration] is an
    integer. *)
Record GRPCConfig : Set := mkGRPC { Port : Z; Timeout : Z }.

Record Config : Set := mkConfig {
  Env : string;
  StoragePath : string;
  TokenTTL : Z;
  GRPC : GRPCConfig
}.

(** The value of [var cfg Config]. *)
Definition zero : Config := mkConfig "" "" 0 (mkGRPC 0 0).

(** How a call ends: it returns, it panics with a value, or the process
    exits inside it with a status. *)
Inductive outcome (A : Type) : Type :=
| Returns (a : A)
| Panics (v : string)
| Exits (status : Z).

Arguments Returns {A} a.
Arguments Panics {A} v.
Arguments Exits {A} status.

(** What [flag.Parse] does on the process-wide flag set, which exits on
    error: it returns, having set the variable of the flag [-config] to the
    value the command line gives it ([None] when the flag is not given), or
    the process exits (a rejected command line, [-h]). *)
Inductive parsed : Set :=
| Parsed (given : option string)
| Exited (status : Z).

(** The calls [MustLoad] and [fetchConfig] make outside the package. *)
Inductive call : Set :=
| flag_StringVar (name value usage : string)
| flag_Parse
| os_Getenv (key : string)
| os_Stat (name : string)
| cleanenv_ReadConfig (path : string) (cfg : Config).

(** What each call gives back, for errors of some type [E].
    [flag.StringVar] returns nothing, or panics with a value when the name
    is already registered; [os.Stat] is taken with its error only;
    [cleanenv.ReadConfig] fills the struct it is handed. *)
Definition resp (E : Type) (c : call) : Type :=
  match c with
  | flag_StringVar _ _ _ => option string
  | flag_Parse => parsed
  | os_Getenv _ => string
  | os_Stat _ => option E
  | cleanenv_ReadConfig _ _ => (Config * option E)%type
  end.

Inductive prog (E A : Type) : Type :=
| Done (o : outcome A)
| Vis (c : call) (k : resp E c → prog E A).

Arguments Done {E A} o.
Arguments Vis {E A} c k.

(** Sequencing: a panic or an exit ends what follows. *)
Fixpoint bind {E A B : Type} (p : prog E A) (f : A → prog E B) : prog E B :=
  match p with
  | Done (Returns a) => f a
  | Done (Panics v) => Done (Panics v)
  | Done (Exits status) => Done (Exits status)
  | Vis c k => Vis c (λ x, bind (k x) f)
  end.

Definition perform {E : Type} (c : call) : prog E (resp E c) :=
  Vis c (λ x, Done (Returns x)).

(** [fetchConfig] (lines 43-53): the flag is registered with the default
    [""], the command line is parsed, and an empty value is replaced by
    the variable CONFIG_PATH. *)
Definition fetchConfig {E : Type} : prog E string :=
  bind (perform (flag_StringVar "config" "" "path to config file")) (λ redefined,
  match redefined with
  | Some v => Done (Panics v)
  | None =>
      bind (perform flag_Parse) (λ line,
      match line with
      | Exited status => Done (Exits status)
      | Parsed given =>
          let res := default "" given in
          if String.eqb res "" then perform (os_Getenv "CONFIG_PATH")
          else Done (Returns res)
      end)
  end).

(** [MustLoad] (lines 23-40), given [os.IsNotExist] on a non-nil error and
    the method [Error()]; [os.IsNotExist(nil)] is false. *)
Definition MustLoad {E : Type} (IsNotExist : E → bool) (ErrorText : E → string)
  : prog E Config :=
  bind fetchConfig (λ path,
  if String.eqb path "" then Done (Panics "config path is empty")
  else
    bind (perform (os_Stat path)) (λ err,
    if match err with Some err => IsNotExist err | None => false end
    then Done (Panics ("config file doesn`t exist:" ++ path))
    else
      bind (perform (cleanenv_ReadConfig path zero)) (λ '(cfg, err),
      match err with
      | Some err => Done (Panics ("failed to read config:" ++ ErrorText err))
      | None => Done (Returns cfg)
      end))).

(** The part of [MustLoad] that follows [fetchConfig] (lines 25-39), for
    a path. *)
Definition load {E : Type} (IsNotExist : E → bool) (ErrorText : E → string)
    (path : string) : prog E Config :=
  if String.eqb path "" then Done (Panics "config path is empty")
  else
    bind (perform (os_Stat path)) (λ err,
    if match err with Some err => IsNotExist err | None => false end
    then Done (Panics ("config file doesn`t exist:" ++ path))
    else
      bind (perform (cleanenv_ReadConfig path zero)) (λ '(cfg, err),
      match err with
      | Some err => Done (Panics ("failed to read config:" ++ ErrorText err))
      | None => Done (Returns cfg)
      end)).

(** The process a program runs in: what each call answers. *)
Record Process (E : Type) : Type := mkProcess {
  StringVar : string → option string;
  Parse : parsed;
  Getenv : string → string;
  Stat : string → option E;
  ReadConfig : string → Config → Config * option E
}.

Arguments mkProcess {E} _ _ _ _ _.
Arguments StringVar {E} _ _.
Arguments Parse {E} _.
Arguments Getenv {E} _ _.
Arguments Stat {E} _ _.
Arguments ReadConfig {E} _ _ _.

Definition answer {E : Type} (p : Process E) (c : call) : resp E c :=
  match c with
  | flag_StringVar name _ _ => StringVar p name
  | flag_Parse => Parse p
  | os_Getenv key => Getenv p key
  | os_Stat name => Stat p name
  | cleanenv_ReadConfig path cfg => ReadConfig p path cfg
  end.

Fixpoint run {E A : Type} (p : Process E) (m : prog E A) : outcome A :=
  match m with
  | Done o => o
  | Vis c k => run p (k (answer p c))
  end.

Fixpoint calls {E A : Type} (p : Process E) (m : prog E A) : list call :=
  match m with
  | Done _ => []
  | Vis c k => c :: calls p (k (answer p c))
  end.

(** The path [fetchConfig] returns in a process where it returns. *)
Definition resolved {E : Type} (p : Process E) (given : option string) : string :=
  if String.eqb (default "" given) "" then Getenv p "CONFIG_PATH" else default "" given.

(** A process for the examples, with errors as their texts: one file,
    local.yaml, that reads well, and a command line that is parsed or
    rejected. *)
Definition local : Config := mkConfig "local" "./storage/sso.db" 3600 (mkGRPC 44044 5).

Definition missing (err : string) : bool := String.eqb err "no such file or directory".

Definition example (line : parsed) (env : string) : Process string :=
  mkProcess (λ _, None) line
    (λ key, if String.eqb key "CONFIG_PATH" then env else "")
    (λ path, if String.eqb path "local.yaml" then None else Some "no such file or directory")
    (λ path cfg, if String.eqb path "local.yaml" then (local, None) else (cfg, Some "EOF")).

End config.

(** * Properties *)

Section Laws.

Context {S R : Type} `{!Collaborators S R}.

Lemma run_bind {A B : Type} (p : prog A) (f : A → prog B) (w : World S R) :
  run (p ≫= f) w = run (f (run p w).1) (run p w).2.
Proof.
  revert w. induction p as [a | c k IH]; intros w; [done|].
  cbn. destruct (answer c w) as [x w']. apply IH.
Qed.

Lemma calls_bind {A B : Type} (p : prog A) (f : A → prog B) (w : World S R) :
  calls (p ≫= f) w = (calls p w ++ calls (f (run p w).1) (run p w).2)%list.
Proof.
  revert w. induction p as [a | c k IH]; intros w; [done|].
  cbn. destruct (answer c w) as [x w']. cbn. f_equal. apply IH.
Qed.

End Laws.

Ltac run_step :=
  repeat progress
    (cbn [run calls answer mbind mret prog_bind prog_ret bind perform Info Error_
          store sys out fst snd List.filter is_store_call];
     try unfold on_store, on_sys).

Section Login.

Context {S R : Type} `{!Collaborators S R}.

(** C1.  A login for an email whose fetch reports user-not-found and a
    login for a stored user whose password does not match the stored hash
    return the same pair: the empty token and the error
    "auth.Login: invalid credentials" wrapping ErrInvalidCredentials.  The
    caller gets equal values in the two cases, whatever the emails,
    passwords and application ids are. *)
Theorem Login_unknown_user_same_as_wrong_password
    (a : Auth.t) (w w' : World S R)
    (email email' password password' : string) (appID appID' : Z)
    (u u' : models.User) (e e' : error) (s s' : S) :
  UserProvider.User email (store w) = ((u, Some e), s) →
  errors_Is e storage.ErrUserNotFound = true →
  UserProvider.User email' (store w') = ((u', None), s') →
  Primitives.CompareHashAndPassword
    (models.PassHash u') (String.list_byte_of_string password') = Some e' →
  (run (Auth.Login a email password appID) w).1
    = ("", Some (Wrapf "auth.Login" ErrInvalidCredentials))
  ∧ (run (Auth.Login a email' password' appID') w').1
    = (run (Auth.Login a email password appID) w).1.
Proof.
  intros Hu He Hu' Hc. unfold Auth.Login. run_step.
  unfold on_store. run_step. rewrite Hu, Hu'. run_step.
  rewrite He. run_step. rewrite Hc. run_step. done.
Qed.

End Login.

Section SetRoles.

Context {S R : Type} `{!Collaborators S R}.

Lemma outside_vocabulary (role : string) :
  role ∉ vocabulary ↔
  negb (String.eqb role "admin") && negb (String.eqb role "user")
    && negb (String.eqb role "manager") = true.
Proof.
  unfold vocabulary. rewrite !not_elem_of_cons, !andb_true_iff, !negb_true_iff.
  rewrite !String.eqb_neq. pose proof (not_elem_of_nil role). tauto.
Qed.

(** A list of known roles passes the loop. *)
Lemma range_roles_known (log : slog.Logger) (op : string) (roles : list string)
    (rest : prog (option error)) :
  Forall (λ role, role ∈ vocabulary) roles →
  Auth.range_roles log op roles rest = rest.
Proof.
  induction 1 as [| role roles Hrole _ IH]; [done|]. cbn [Auth.range_roles].
  destruct (negb (String.eqb role "admin") && _ && _) eqn:E; [|exact IH].
  apply outside_vocabulary in E. contradiction.
Qed.

(** A list with an unknown role ends in the loop, whatever follows it. *)
Lemma range_roles_unknown (log : slog.Logger) (op : string) (roles : list string)
    (role : string) (rest : prog (option error)) :
  role ∈ roles → role ∉ vocabulary →
  Auth.range_roles log op roles rest
    = (Error_ log "invalid role" [];;
       mret (Some (Errorf (op ++ ": " ++ sentinel_text ErrInvalidRoles)))).
Proof.
  intros Hin Hout. induction roles as [| r roles IH]; [by apply not_elem_of_nil in Hin|].
  cbn [Auth.range_roles].
  destruct (negb (String.eqb r "admin") && _ && _) eqn:E; [done|].
  apply IH. apply elem_of_cons in Hin as [-> | Hin]; [|done].
  apply outside_vocabulary in Hout. congruence.
Qed.

(** C2.  When some requested role is outside {admin, user, manager},
    SetRoles makes no call on the storage interfaces, so the stored data
    is what it was; but what it returns is a fresh error with the text
    "auth.SetRoles: invalid roles", built with the verb %s at line 190:
    [errors.Is] does not find ErrInvalidRoles in it, and a caller
    sorting failures by the error variables sees kind Internal. *)
Theorem SetRoles_unknown_role_no_write_but_not_ErrInvalidRoles
    (a : Auth.t) (w : World S R) (email : string) (roles : list string) (role : string) :
  role ∈ roles → role ∉ vocabulary →
  List.filter is_store_call (calls (Auth.SetRoles a email roles) w) = []
  ∧ store (run (Auth.SetRoles a email roles) w).2 = store w
  ∧ (run (Auth.SetRoles a email roles) w).1
      = Some (Errorf "auth.SetRoles: invalid roles")
  ∧ errors_Is (Errorf "auth.SetRoles: invalid roles") ErrInvalidRoles = false
  ∧ kind_of (Errorf "auth.SetRoles: invalid roles") = Internal.
Proof.
  intros Hin Hout. unfold Auth.SetRoles.
  rewrite (range_roles_unknown _ _ _ role) by done. by run_step.
Qed.

(** C9.  The vocabulary check comes before the store is asked: with an
    unknown role in the list, SetRoles returns the same value whether or
    not the store would report user-not-found, and that value does not
    hold ErrInvalidCredentials.  It does not hold ErrInvalidRoles either:
    it is the fresh error of line 190. *)
Theorem SetRoles_unknown_role_decided_before_store
    (a : Auth.t) (w : World S R) (email : string) (roles : list string) (role : string)
    (e : error) (s : S) :
  role ∈ roles → role ∉ vocabulary →
  UserProvider.SetRoles email roles (store w) = (Some e, s) →
  errors_Is e storage.ErrUserNotFound = true →
  ∃ err, (run (Auth.SetRoles a email roles) w).1 = Some err
    ∧ Error (λ _, "") err = "auth.SetRoles: invalid roles"
    ∧ errors_Is err ErrInvalidCredentials = false
    ∧ errors_Is err ErrInvalidRoles = false
    ∧ usrProvider_SetRoles email roles ∉ calls (Auth.SetRoles a email roles) w.
Proof.
  intros Hin Hout _ _. unfold Auth.SetRoles.
  rewrite (range_roles_unknown _ _ _ role) by done. run_step.
  eexists. repeat split; try done.
  rewrite list_elem_of_singleton. discriminate.
Qed.

(** C10.  When every requested role is in {admin, user, manager}, the one
    call SetRoles makes on the storage interfaces is set-roles with the
    email and the very list it was given: same members, same order, same
    repetitions. *)
Theorem SetRoles_forwards_roles_unchanged
    (a : Auth.t) (w : World S R) (email : string) (roles : list string) :
  Forall (λ role, role ∈ vocabulary) roles →
  List.filter is_store_call (calls (Auth.SetRoles a email roles) w)
    = [usrProvider_SetRoles email roles].
Proof.
  intros Hall. unfold Auth.SetRoles. rewrite range_roles_known by done.
  run_step. destruct (UserProvider.SetRoles email roles (store w)) as [[err|] s1]; run_step.
  - by destruct (errors_Is err _).
  - done.
Qed.

End SetRoles.

Section LoginEffects.

Context {S R : Type} `{!Collaborators S R}.

(** C8.  Whatever the inputs and whatever the collaborators answer, the
    calls Login makes on the storage interfaces are the fetch of the user
    and then the fetch of the application, or a beginning of that
    sequence; none of its calls is save-user, delete-user, set-roles or
    save-app.  With a store whose two fetches leave it as it is, the
    store after Login is the store before it. *)
Theorem Login_only_reads
    (a : Auth.t) (w : World S R) (email password : string) (appID : Z) :
  Forall (λ c, is_store_write c = false) (calls (Auth.Login a email password appID) w)
  ∧ List.filter is_store_call (calls (Auth.Login a email password appID) w)
      `prefix_of` [usrProvider_User email; appProvider_App appID]
  ∧ ((∀ e s, (UserProvider.User e s).2 = s) →
     (∀ i s, (AppProvider.App i s).2 = s) →
     store (run (Auth.Login a email password appID) w).2 = store w).
Proof.
  unfold Auth.Login. run_step. unfold on_store, on_sys. run_step.
  destruct (UserProvider.User email (store w)) as [[u [e|]] s1] eqn:Hu; run_step.
  { destruct (errors_Is e _); run_step.
    all: split; [repeat constructor|split; [exists [appProvider_App appID]; reflexivity|]].
    all: intros HU _; specialize (HU email (store w)); by rewrite Hu in HU. }
  destruct (Primitives.CompareHashAndPassword _ _) as [e|]; run_step.
  { split; [repeat constructor|split; [exists [appProvider_App appID]; reflexivity|]].
    intros HU _. specialize (HU email (store w)). by rewrite Hu in HU. }
  destruct (AppProvider.App appID s1) as [[app [e|]] s2] eqn:Ha; run_step.
  { split; [repeat constructor|split; [exists []; reflexivity|]].
    intros HU HA. specialize (HU email (store w)). specialize (HA appID s1).
    rewrite Hu in HU. rewrite Ha in HA. cbn in *. congruence. }
  destruct (Primitives.NewToken u app (Auth.tokenTTL a) (sys w)) as [[tok [e|]] r1];
    run_step.
  all: split; [repeat constructor|split; [exists []; reflexivity|]].
  all: intros HU HA; specialize (HU email (store w)); specialize (HA appID s1).
  all: rewrite Hu in HU; rewrite Ha in HA; cbn in *; congruence.
Qed.

(** C4.  When the user is stored and the password does not match, Login
    writes one record at level Error whose message is the stored password
    hash itself, read as a string (line 88). *)
Theorem Login_wrong_password_logs_hash
    (a : Auth.t) (w : World S R) (email password : string) (appID : Z)
    (u : models.User) (e : error) (s : S) :
  UserProvider.User email (store w) = ((u, None), s) →
  Primitives.CompareHashAndPassword
    (models.PassHash u) (String.list_byte_of_string password) = Some e →
  out (run (Auth.Login a email password appID) w).2
    = (out w ++
       [slog.mkRecord (slog.sink (Auth.log a)) slog.LevelInfo "attempting to login user"
          (slog.bound (Auth.log a) ++ [("op", "auth.Login"); ("email", email)]);
        slog.mkRecord (slog.sink (Auth.log a)) slog.LevelError
          (String.string_of_list_byte (models.PassHash u))
          (slog.bound (Auth.log a) ++ [("op", "auth.Login"); ("email", email)])
       ])%list.
Proof.
  intros Hu Hc. unfold Auth.Login. run_step.
  rewrite Hu. run_step. rewrite Hc. run_step.
  cbn [slog.With slog.sink slog.bound]. by rewrite <- app_assoc, !app_nil_r.
Qed.

End LoginEffects.

Section Errors.

Lemma errors_Is_refl (e : error) : errors_Is e e = true.
Proof. destruct e; cbn; by rewrite bool_decide_eq_true_2. Qed.

(** A wrapped error holds exactly what the error under the label holds,
    as far as error variables are concerned. *)
Lemma errors_Is_Wrapf_Own (op : string) (e : error) (s : sentinel) :
  errors_Is (Wrapf op e) (Own s) = errors_Is e (Own s).
Proof. cbn. by rewrite bool_decide_eq_false_2. Qed.

Lemma errors_Is_Wrapf_Stored (op : string) (e : error) (s : storage.sentinel) :
  errors_Is (Wrapf op e) (Stored s) = errors_Is e (Stored s).
Proof. cbn. by rewrite bool_decide_eq_false_2. Qed.

Lemma errors_Is_Wrapf_inner (op : string) (e : error) :
  errors_Is (Wrapf op e) e = true.
Proof.
  cbn. destruct (bool_decide _); [done|]. apply errors_Is_refl.
Qed.

Lemma kind_of_Wrapf (op : string) (e : error) : kind_of (Wrapf op e) = kind_of e.
Proof. unfold kind_of. by rewrite !errors_Is_Wrapf_Own. Qed.

Lemma kind_of_from_outside (e : error) : from_outside e → kind_of e = Internal.
Proof.
  intros H. unfold kind_of.
  by rewrite (H ErrInvalidCredentials), (H ErrUserExists), (H ErrAppExist),
    (H ErrInvalidRoles).
Qed.

Lemma relabel_keeps_other (op : string) (target : storage.sentinel) (own : sentinel)
    (e : error) :
  errors_Is e target = false → errors_Is (relabel op target own e) e = true.
Proof. intros H. unfold relabel. rewrite H. apply errors_Is_Wrapf_inner. Qed.

End Errors.

Section Failures.

Context {S R : Type} `{!Collaborators S R}.
Variable storage_text : storage.sentinel → string.

(** C6, as amended.  Once the hash is generated, RegisterNewUser returns
    what the save of the user decides: the identifier the store assigned
    when the save succeeds; zero and ErrUserExists under the label of the
    method when the store's error is its already-exists value; for any
    other failure zero and the store's own error under the label.  That
    last value is no Internal value of its own: [errors.Is] finds the
    store's error in it, and the kind a caller sorts it into is the kind
    of the store's error itself. *)
Theorem RegisterNewUser_results
    (a : Auth.t) (w : World S R) (email password : string)
    (passHash : list byte) (r : R) (id : Z) (res : option error) (s : S) :
  Primitives.GenerateFromPassword
    (String.list_byte_of_string password) bcrypt.DefaultCost (sys w)
    = ((passHash, None), r) →
  UserSaver.SaveUser email passHash (store w) = ((id, res), s) →
  (res = None →
     (run (Auth.RegisterNewUser storage_text a email password) w).1 = (id, None))
  ∧ (∀ e, res = Some e → errors_Is e storage.ErrUserExist = true →
       (run (Auth.RegisterNewUser storage_text a email password) w).1
         = (0, Some (Wrapf "auth.RegisterNewUser" ErrUserExists))
       ∧ kind_of (Wrapf "auth.RegisterNewUser" ErrUserExists) = AlreadyExists)
  ∧ (∀ e, res = Some e → errors_Is e storage.ErrUserExist = false →
       (run (Auth.RegisterNewUser storage_text a email password) w).1
         = (0, Some (Wrapf "auth.RegisterNewUser" e))
       ∧ errors_Is (Wrapf "auth.RegisterNewUser" e) e = true
       ∧ kind_of (Wrapf "auth.RegisterNewUser" e) = kind_of e).
Proof.
  intros Hg Hs. unfold Auth.RegisterNewUser. run_step. rewrite Hg. run_step.
  rewrite Hs. split; [by intros ->|]. split.
  - intros e -> He. run_step. by rewrite He.
  - intros e -> He. run_step. rewrite He. split; [done|].
    split; [apply errors_Is_Wrapf_inner|apply kind_of_Wrapf].
Qed.

(** C3, as amended.  A failure of a collaborator reaches the caller under
    the label of the method.  The store's not-found value becomes
    ErrInvalidCredentials in the user fetch of Login and in SetRoles,
    GetRoles and DeleteUser; its already-exists values become
    ErrUserExists in RegisterNewUser and ErrAppExist in CreateApp.  Every
    other storage failure, and every failure of the application fetch and
    of the token issuer in Login, is returned as the collaborator's own
    error under the label, where [errors.Is] still finds it. *)
Theorem storage_failure_surfaces_under_label (a : Auth.t) (w : World S R) :
  (∀ email password appID u e s,
     UserProvider.User email (store w) = ((u, Some e), s) →
     (run (Auth.Login a email password appID) w).1
       = ("", Some (relabel "auth.Login" storage.ErrUserNotFound ErrInvalidCredentials e)))
  ∧ (∀ email password appID u s app e s',
       UserProvider.User email (store w) = ((u, None), s) →
       Primitives.CompareHashAndPassword
         (models.PassHash u) (String.list_byte_of_string password) = None →
       AppProvider.App appID s = ((app, Some e), s') →
       (run (Auth.Login a email password appID) w).1 = ("", Some (Wrapf "auth.Login" e)))
  ∧ (∀ email password appID u s app s' tok e r,
       UserProvider.User email (store w) = ((u, None), s) →
       Primitives.CompareHashAndPassword
         (models.PassHash u) (String.list_byte_of_string password) = None →
       AppProvider.App appID s = ((app, None), s') →
       Primitives.NewToken u app (Auth.tokenTTL a) (sys w) = ((tok, Some e), r) →
       (run (Auth.Login a email password appID) w).1 = ("", Some (Wrapf "auth.Login" e)))
  ∧ (∀ email password passHash r id e s,
       Primitives.GenerateFromPassword
         (String.list_byte_of_string password) bcrypt.DefaultCost (sys w)
         = ((passHash, None), r) →
       UserSaver.SaveUser email passHash (store w) = ((id, Some e), s) →
       (run (Auth.RegisterNewUser storage_text a email password) w).1
         = (0, Some (relabel "auth.RegisterNewUser" storage.ErrUserExist ErrUserExists e)))
  ∧ (∀ name secret id e s,
       AppSaver.SaveApp name secret (store w) = ((id, Some e), s) →
       (run (Auth.CreateApp storage_text a name secret) w).1
         = (0, Some (relabel "auth.NewApp" storage.ErrAppExist ErrAppExist e)))
  ∧ (∀ email roles e s,
       Forall (λ role, role ∈ vocabulary) roles →
       UserProvider.SetRoles email roles (store w) = (Some e, s) →
       (run (Auth.SetRoles a email roles) w).1
         = Some (relabel "auth.SetRoles" storage.ErrUserNotFound ErrInvalidCredentials e))
  ∧ (∀ email roles e s,
       UserProvider.GetRoles email (store w) = ((roles, Some e), s) →
       (run (Auth.GetRoles a email) w).1
         = ([], Some (relabel "auth.GetRoles" storage.ErrUserNotFound ErrInvalidCredentials e)))
  ∧ (∀ email e s,
       UserProvider.DeleteUser email (store w) = (Some e, s) →
       (run (Auth.DeleteUser a email) w).1
         = Some (relabel "auth.GetRoles" storage.ErrUserNotFound ErrInvalidCredentials e))
  ∧ (∀ op target own e,
       errors_Is e (Stored target) = false →
       errors_Is (relabel op target own e) e = true).
Proof.
  unfold relabel. repeat split.
  - intros * Hu. unfold Auth.Login. run_step. rewrite Hu. run_step.
    by destruct (errors_Is e _).
  - intros * Hu Hc Ha. unfold Auth.Login. run_step. rewrite Hu. run_step.
    rewrite Hc. run_step. by rewrite Ha.
  - intros * Hu Hc Ha Ht. unfold Auth.Login. run_step. rewrite Hu. run_step.
    rewrite Hc. run_step. rewrite Ha. run_step. by rewrite Ht.
  - intros * Hg Hs. unfold Auth.RegisterNewUser. run_step. rewrite Hg. run_step.
    rewrite Hs. run_step. by destruct (errors_Is e _).
  - intros * Hs. unfold Auth.CreateApp. run_step. rewrite Hs. run_step.
    by destruct (errors_Is e _).
  - intros * Hall Hs. unfold Auth.SetRoles. rewrite range_roles_known by done.
    run_step. rewrite Hs. run_step. by destruct (errors_Is e _).
  - intros * Hg. unfold Auth.GetRoles. run_step. rewrite Hg. run_step.
    by destruct (errors_Is e _).
  - intros * Hd. unfold Auth.DeleteUser. run_step. rewrite Hd. run_step.
    by destruct (errors_Is e _).
  - intros * H. by apply relabel_keeps_other.
Qed.

End Failures.

Section OnReferenceStore.

Implicit Types (w : World refstore.t unit) (a : Auth.t) (email : string).

(** Deleting a stored user: no error, and the row is gone. *)
Lemma run_DeleteUser_stored a w email (row : refstore.Row) :
  refstore.users (store w) !! email = Some row →
  run (Auth.DeleteUser a email) w
    = (None,
       mkWorld (refstore.mk (delete email (refstore.users (store w)))
                  (refstore.apps (store w)) (refstore.last_uid (store w))
                  (refstore.last_appid (store w)))
               (sys w) (out w)).
Proof.
  intros Hrow. unfold Auth.DeleteUser. run_step.
  cbn [UserProvider.DeleteUser usrProvider refstore.collaborators].
  unfold refstore.DeleteUser. rewrite Hrow. by run_step.
Qed.

(** Deleting an email that is not stored. *)
Lemma run_DeleteUser_absent a w email :
  refstore.users (store w) !! email = None →
  (run (Auth.DeleteUser a email) w).1
    = Some (Wrapf "auth.GetRoles" ErrInvalidCredentials).
Proof.
  intros Hnone. unfold Auth.DeleteUser. run_step.
  cbn [UserProvider.DeleteUser usrProvider refstore.collaborators].
  unfold refstore.DeleteUser. rewrite Hnone. by run_step.
Qed.

(** C5.  On the reference store, deleting a stored user succeeds with no
    error and deleting the same email straight after returns
    ErrInvalidCredentials under the label of the method; so does deleting
    an email that is not stored.  The label at line 229 is
    "auth.GetRoles". *)
Theorem DeleteUser_fails_on_absence a w email :
  (is_Some (refstore.users (store w) !! email) →
     (run (Auth.DeleteUser a email) w).1 = None
     ∧ (run (Auth.DeleteUser a email) (run (Auth.DeleteUser a email) w).2).1
         = Some (Wrapf "auth.GetRoles" ErrInvalidCredentials))
  ∧ (refstore.users (store w) !! email = None →
     (run (Auth.DeleteUser a email) w).1
       = Some (Wrapf "auth.GetRoles" ErrInvalidCredentials))
  ∧ kind_of (Wrapf "auth.GetRoles" ErrInvalidCredentials) = InvalidCredentials.
Proof.
  split; [|split; [apply run_DeleteUser_absent|done]].
  intros [row Hrow]. rewrite (run_DeleteUser_stored a w email row Hrow).
  split; [done|]. apply run_DeleteUser_absent. cbn [snd store refstore.users].
  apply lookup_delete_eq.
Qed.

(** Setting the roles of a stored user, with no unknown role in the
    list: no error, and the row holds the set of the names given. *)
Lemma run_SetRoles_stored a w email (roles : list string) (row : refstore.Row) :
  Forall (λ role, role ∈ vocabulary) roles →
  refstore.users (store w) !! email = Some row →
  ∃ records,
    run (Auth.SetRoles a email roles) w
      = (None,
         mkWorld (refstore.mk
                    (<[email := refstore.mkRow (refstore.uid row) (refstore.hash row)
                                  (list_to_set roles)]> (refstore.users (store w)))
                    (refstore.apps (store w)) (refstore.last_uid (store w))
                    (refstore.last_appid (store w)))
                 (sys w) records).
Proof.
  intros Hall Hrow. unfold Auth.SetRoles. rewrite range_roles_known by done.
  run_step. cbn [UserProvider.SetRoles usrProvider refstore.collaborators].
  unfold refstore.SetRoles. rewrite Hrow. run_step. by eexists.
Qed.

(** Reading the roles of a stored user. *)
Lemma run_GetRoles_stored a w email (row : refstore.Row) :
  refstore.users (store w) !! email = Some row →
  (run (Auth.GetRoles a email) w).1 = (elements (refstore.roles row), None).
Proof.
  intros Hrow. unfold Auth.GetRoles. run_step.
  cbn [UserProvider.GetRoles usrProvider refstore.collaborators].
  unfold refstore.GetRoles. rewrite Hrow. by run_step.
Qed.

(** C7.  On the reference store, SetRoles with the empty list for a
    stored user passes the loop, performs the set-roles call with the
    empty list and returns no error; GetRoles for the same email then
    returns the empty list and no error. *)
Theorem SetRoles_empty_then_GetRoles_empty a w email :
  is_Some (refstore.users (store w) !! email) →
  (run (Auth.SetRoles a email []) w).1 = None
  ∧ List.filter is_store_call (calls (Auth.SetRoles a email []) w)
      = [usrProvider_SetRoles email []]
  ∧ (run (Auth.GetRoles a email) (run (Auth.SetRoles a email []) w).2).1 = ([], None).
Proof.
  intros [row Hrow].
  destruct (run_SetRoles_stored a w email [] row) as [records Hrun]; [done..|].
  rewrite Hrun. split; [done|]. split.
  - unfold Auth.SetRoles. cbn [Auth.range_roles]. run_step.
    cbn [UserProvider.SetRoles usrProvider refstore.collaborators].
    unfold refstore.SetRoles. rewrite Hrow. by run_step.
  - erewrite run_GetRoles_stored; [|apply lookup_insert_eq].
    cbn [refstore.roles list_to_set foldr]. by rewrite elements_empty.
Qed.

End OnReferenceStore.

(** * Instances on concrete data *)

Lemma reference_fetches_read_only :
  (∀ e s, (refstore.User e s).2 = s) ∧ (∀ i s, (refstore.App i s).2 = s).
Proof.
  split.
  - intros e s. unfold refstore.User. by destruct (refstore.users s !! e).
  - intros i s. unfold refstore.App. by destruct (find _ _).
Qed.

Lemma root_is_unknown : "root" ∈ ["admin"; "root"] ∧ "root" ∉ vocabulary.
Proof.
  split; [apply list_elem_of_further, list_elem_of_here|].
  apply outside_vocabulary. reflexivity.
Qed.

Lemma Foreign_from_outside (t : string) : from_outside (Foreign t).
Proof. by intros []. Qed.

(** C1 on the store with the one user a@x.com: an unknown email against a
    wrong password. *)
Lemma Login_unknown_user_same_as_wrong_password_witness :
  (run (Auth.Login svc "b@x.com" "pw123" 1) (refstore.world one_user)).1
    = ("", Some (Wrapf "auth.Login" ErrInvalidCredentials))
  ∧ (run (Auth.Login svc "a@x.com" "wrong" 2) (refstore.world one_user)).1
    = (run (Auth.Login svc "b@x.com" "pw123" 1) (refstore.world one_user)).1.
Proof.
  apply (Login_unknown_user_same_as_wrong_password svc
           (refstore.world one_user) (refstore.world one_user)
           "b@x.com" "a@x.com" "pw123" "wrong" 1 2
           models.zeroUser (refstore.User "a@x.com" one_user).1.1
           storage.ErrUserNotFound
           (Foreign "crypto/bcrypt: hashedPassword is not the hash of the given password")
           one_user one_user); vm_compute; reflexivity.
Defined.

(** C2 on the same store: the roles admin and root for the stored user. *)
Lemma SetRoles_unknown_role_no_write_but_not_ErrInvalidRoles_witness :
  List.filter is_store_call
    (calls (Auth.SetRoles svc "a@x.com" ["admin"; "root"]) (refstore.world one_user)) = []
  ∧ store (run (Auth.SetRoles svc "a@x.com" ["admin"; "root"]) (refstore.world one_user)).2
      = one_user
  ∧ (run (Auth.SetRoles svc "a@x.com" ["admin"; "root"]) (refstore.world one_user)).1
      = Some (Errorf "auth.SetRoles: invalid roles")
  ∧ errors_Is (Errorf "auth.SetRoles: invalid roles") ErrInvalidRoles = false
  ∧ kind_of (Errorf "auth.SetRoles: invalid roles") = Internal.
Proof.
  exact (SetRoles_unknown_role_no_write_but_not_ErrInvalidRoles svc
           (refstore.world one_user) "a@x.com" ["admin"; "root"] "root"
           (proj1 root_is_unknown) (proj2 root_is_unknown)).
Defined.

(** C9 on the same store: the roles admin and root for an email that is
    not stored. *)
Lemma SetRoles_unknown_role_decided_before_store_witness :
  ∃ err,
    (run (Auth.SetRoles svc "nobody@x.com" ["admin"; "root"]) (refstore.world one_user)).1
      = Some err
    ∧ Error (λ _, "") err = "auth.SetRoles: invalid roles"
    ∧ errors_Is err ErrInvalidCredentials = false
    ∧ errors_Is err ErrInvalidRoles = false
    ∧ usrProvider_SetRoles "nobody@x.com" ["admin"; "root"]
        ∉ calls (Auth.SetRoles svc "nobody@x.com" ["admin"; "root"])
            (refstore.world one_user).
Proof.
  apply (SetRoles_unknown_role_decided_before_store svc (refstore.world one_user)
           "nobody@x.com" ["admin"; "root"] "root" storage.ErrUserNotFound one_user
           (proj1 root_is_unknown) (proj2 root_is_unknown)); vm_compute; reflexivity.
Defined.

(** C10 on the same store: a list with a repeated role. *)
Lemma SetRoles_forwards_roles_unchanged_witness :
  List.filter is_store_call
    (calls (Auth.SetRoles svc "a@x.com" ["user"; "admin"; "user"]) (refstore.world one_user))
    = [usrProvider_SetRoles "a@x.com" ["user"; "admin"; "user"]].
Proof.
  apply SetRoles_forwards_roles_unchanged.
  repeat constructor; apply (bool_decide_unpack _); vm_compute; exact I.
Defined.

(** C4 on the same store: the stored hash is the text "$2a$10$pw123", and
    a login with a wrong password writes it to the log. *)
Lemma Login_wrong_password_logs_hash_witness :
  out (run (Auth.Login svc "a@x.com" "wrong" 1) (refstore.world one_user)).2
    = [slog.mkRecord slog.AuthLogger slog.LevelInfo "attempting to login user"
         [("op", "auth.Login"); ("email", "a@x.com")];
       slog.mkRecord slog.AuthLogger slog.LevelError "$2a$10$pw123"
         [("op", "auth.Login"); ("email", "a@x.com")]].
Proof.
  exact (Login_wrong_password_logs_hash svc (refstore.world one_user)
           "a@x.com" "wrong" 1
           (refstore.User "a@x.com" one_user).1.1
           (Foreign "crypto/bcrypt: hashedPassword is not the hash of the given password")
           one_user eq_refl eq_refl).
Defined.

(** C8 on the same store: a full login leaves the store as it was. *)
Lemma Login_only_reads_witness :
  Forall (λ c, is_store_write c = false)
    (calls (Auth.Login svc "a@x.com" "pw123" 1) (refstore.world one_user))
  ∧ List.filter is_store_call
      (calls (Auth.Login svc "a@x.com" "pw123" 1) (refstore.world one_user))
      `prefix_of` [usrProvider_User "a@x.com"; appProvider_App 1]
  ∧ store (run (Auth.Login svc "a@x.com" "pw123" 1) (refstore.world one_user)).2 = one_user.
Proof.
  destruct (Login_only_reads svc (refstore.world one_user) "a@x.com" "pw123" 1)
    as (Hw & Hp & Hs).
  split; [exact Hw|]. split; [exact Hp|].
  exact (Hs (proj1 reference_fetches_read_only) (proj2 reference_fetches_read_only)).
Defined.

(** C3 as stated fails: a login of the stored user for an application
    identifier that is not stored returns an error in which [errors.Is]
    finds the storage package's own ErrAppNotFound. *)
Lemma Login_exposes_storage_error :
  ¬ (∀ (a : Auth.t) (w : World refstore.t unit) (email password : string) (appID : Z)
       (token : string) (err : error),
       (run (Auth.Login a email password appID) w).1 = (token, Some err) →
       ∀ s : storage.sentinel, errors_Is err (Stored s) = false).
Proof.
  intros H.
  specialize (H svc (refstore.world one_user) "a@x.com" "pw123" 2 ""
                (Wrapf "auth.Login" storage.ErrAppNotFound) eq_refl storage.ErrAppNotFound).
  vm_compute in H. discriminate H.
Qed.

(** C3 as amended, on the store with one user (an application that is not
    stored) and on the store that is out of reach (every method). *)
Lemma storage_failure_surfaces_under_label_witness :
  (run (Auth.Login svc "a@x.com" "pw123" 2) (refstore.world one_user)).1
    = ("", Some (Wrapf "auth.Login" storage.ErrAppNotFound))
  ∧ (run (Auth.Login svc "b@x.com" "pw123" 1) (refstore.world one_user)).1
    = ("", Some (Wrapf "auth.Login" ErrInvalidCredentials))
  ∧ (run (Auth.Login svc "a@x.com" "pw123" 1) outage.world).1
    = ("", Some (Wrapf "auth.Login" outage.failure))
  ∧ (run (Auth.RegisterNewUser no_text svc "a@x.com" "pw123") outage.world).1
    = (0, Some (Wrapf "auth.RegisterNewUser" outage.failure))
  ∧ (run (Auth.CreateApp no_text svc "shop" "s3cret") (refstore.world one_user)).1
    = (0, Some (Wrapf "auth.NewApp" ErrAppExist))
  ∧ (run (Auth.SetRoles svc "a@x.com" ["admin"]) outage.world).1
    = Some (Wrapf "auth.SetRoles" outage.failure)
  ∧ (run (Auth.GetRoles svc "a@x.com") outage.world).1
    = ([], Some (Wrapf "auth.GetRoles" outage.failure))
  ∧ (run (Auth.DeleteUser svc "a@x.com") outage.world).1
    = Some (Wrapf "auth.GetRoles" outage.failure)
  ∧ errors_Is (Wrapf "auth.GetRoles" outage.failure) outage.failure = true.
Proof.
  destruct (storage_failure_surfaces_under_label no_text svc (refstore.world one_user))
    as (Huser & Happ & _ & _ & Hsaveapp & _).
  destruct (storage_failure_surfaces_under_label no_text svc outage.world)
    as (Huser' & _ & _ & Hsave & _ & Hset & Hget & Hdelete & Hkeep).
  split; [|split; [|split; [|split; [|split; [|split; [|split; [|split]]]]]]].
  - exact (Happ "a@x.com" "pw123" 2 (refstore.User "a@x.com" one_user).1.1 one_user
             models.zeroApp storage.ErrAppNotFound one_user eq_refl eq_refl eq_refl).
  - exact (Huser "b@x.com" "pw123" 1 models.zeroUser storage.ErrUserNotFound one_user
             eq_refl).
  - exact (Huser' "a@x.com" "pw123" 1 models.zeroUser outage.failure outage.down eq_refl).
  - exact (Hsave "a@x.com" "pw123"
             (refstore.prefix ++ String.list_byte_of_string "pw123")%list tt 0
             outage.failure outage.down eq_refl eq_refl).
  - exact (Hsaveapp "shop" "s3cret" 0 storage.ErrAppExist one_user eq_refl).
  - apply (Hset "a@x.com" ["admin"] outage.failure outage.down); [|reflexivity].
    repeat constructor; apply (bool_decide_unpack _); vm_compute; exact I.
  - exact (Hget "a@x.com" [] outage.failure outage.down eq_refl).
  - exact (Hdelete "a@x.com" outage.failure outage.down eq_refl).
  - exact (Hkeep "auth.GetRoles" storage.ErrUserNotFound ErrInvalidCredentials
             outage.failure eq_refl).
Defined.

(** C6 on the empty store (a first registration), on the store with one
    user (the same email again) and on the store that is out of reach. *)
Lemma RegisterNewUser_results_witness :
  (run (Auth.RegisterNewUser no_text svc "a@x.com" "pw123")
     (refstore.world refstore.empty)).1 = (1, None)
  ∧ (run (Auth.RegisterNewUser no_text svc "a@x.com" "other")
       (refstore.world one_user)).1
    = (0, Some (Wrapf "auth.RegisterNewUser" ErrUserExists))
  ∧ (run (Auth.RegisterNewUser no_text svc "a@x.com" "pw123") outage.world).1
    = (0, Some (Wrapf "auth.RegisterNewUser" outage.failure))
  ∧ errors_Is (Wrapf "auth.RegisterNewUser" outage.failure) outage.failure = true
  ∧ kind_of (Wrapf "auth.RegisterNewUser" outage.failure) = Internal.
Proof.
  split; [|split].
  - refine (proj1 (RegisterNewUser_results no_text svc (refstore.world refstore.empty)
                     "a@x.com" "pw123"
                     (refstore.prefix ++ String.list_byte_of_string "pw123")%list tt 1 None
                     (refstore.SaveUser "a@x.com"
                        (refstore.prefix ++ String.list_byte_of_string "pw123")%list
                        refstore.empty).2
                     eq_refl eq_refl) eq_refl).
  - refine (proj1 (proj1 (proj2 (RegisterNewUser_results no_text svc
                     (refstore.world one_user) "a@x.com" "other"
                     (refstore.prefix ++ String.list_byte_of_string "other")%list tt 0
                     (Some (Stored storage.ErrUserExist)) one_user eq_refl eq_refl))
                   (Stored storage.ErrUserExist) eq_refl eq_refl)).
  - refine (proj2 (proj2 (RegisterNewUser_results no_text svc outage.world
                     "a@x.com" "pw123"
                     (refstore.prefix ++ String.list_byte_of_string "pw123")%list tt 0
                     (Some outage.failure) outage.down eq_refl eq_refl))
                   outage.failure eq_refl eq_refl).
Defined.

(** C6 as stated fails: a store whose save fails with an error that holds
    ErrInvalidCredentials is another store failure, and what
    RegisterNewUser returns for it is that error under the label, which a
    caller sorts as InvalidCredentials, not as Internal. *)
Lemma RegisterNewUser_other_failure_not_Internal :
  ¬ (∀ (a : Auth.t) (w : World mock.t unit) (email password : string)
       (passHash : list byte) (r : unit) (id : Z) (e : error) (s : mock.t),
       Primitives.GenerateFromPassword
         (String.list_byte_of_string password) bcrypt.DefaultCost (sys w)
         = ((passHash, None), r) →
       UserSaver.SaveUser email passHash (store w) = ((id, Some e), s) →
       errors_Is e storage.ErrUserExist = false →
       ∃ err,
         (run (Auth.RegisterNewUser no_text a email password) w).1 = (0, Some err)
         ∧ kind_of err = Internal).
Proof.
  intros H.
  destruct (H svc mock.world "a@x.com" "pw123"
              (refstore.prefix ++ String.list_byte_of_string "pw123")%list tt 0
              mock.failure mock.up eq_refl eq_refl eq_refl) as (err & Hrun & Hkind).
  vm_compute in Hrun. injection Hrun as <-. vm_compute in Hkind. discriminate Hkind.
Qed.

(** C5 on the store with one user: a@x.com is stored, b@x.com is not. *)
Lemma DeleteUser_fails_on_absence_witness :
  (run (Auth.DeleteUser svc "a@x.com") (refstore.world one_user)).1 = None
  ∧ (run (Auth.DeleteUser svc "a@x.com")
       (run (Auth.DeleteUser svc "a@x.com") (refstore.world one_user)).2).1
    = Some (Wrapf "auth.GetRoles" ErrInvalidCredentials)
  ∧ (run (Auth.DeleteUser svc "b@x.com") (refstore.world one_user)).1
    = Some (Wrapf "auth.GetRoles" ErrInvalidCredentials).
Proof.
  destruct (DeleteUser_fails_on_absence svc (refstore.world one_user) "a@x.com")
    as (Hstored & _ & _).
  destruct (DeleteUser_fails_on_absence svc (refstore.world one_user) "b@x.com")
    as (_ & Habsent & _).
  split; [|split].
  - apply Hstored. vm_compute. eauto.
  - apply Hstored. vm_compute. eauto.
  - apply Habsent. vm_compute. reflexivity.
Defined.

(** C7 on the store with one user, after the user was given two roles. *)
Lemma SetRoles_empty_then_GetRoles_empty_witness :
  let w := (run (Auth.SetRoles svc "a@x.com" ["admin"; "user"])
              (refstore.world one_user)).2 in
  (run (Auth.SetRoles svc "a@x.com" []) w).1 = None
  ∧ List.filter is_store_call (calls (Auth.SetRoles svc "a@x.com" []) w)
      = [usrProvider_SetRoles "a@x.com" []]
  ∧ (run (Auth.GetRoles svc "a@x.com") (run (Auth.SetRoles svc "a@x.com" []) w).2).1
      = ([], None).
Proof.
  intros w. apply SetRoles_empty_then_GetRoles_empty. vm_compute. eauto.
Defined.

(** The scenario of section 8 of the specification, run on the reference
    store: a registration, an application, a good and a bad login, and a
    role assignment read back. *)
Example section_8_scenario :
  let w0 := refstore.world refstore.empty in
  let r1 := run (Auth.RegisterNewUser no_text svc "a@x.com" "pw123") w0 in
  let r2 := run (Auth.CreateApp no_text svc "shop" "s3cret") r1.2 in
  let r3 := run (Auth.Login svc "a@x.com" "pw123" 1) r2.2 in
  let r4 := run (Auth.Login svc "a@x.com" "wrong" 1) r3.2 in
  let r5 := run (Auth.SetRoles svc "a@x.com" ["admin"]) r4.2 in
  let r6 := run (Auth.GetRoles svc "a@x.com") r5.2 in
  r1.1 = (1, None) ∧ r2.1 = (1, None)
  ∧ r3.1 = ("a@x.com@shop", None)
  ∧ r4.1 = ("", Some (Wrapf "auth.Login" ErrInvalidCredentials))
  ∧ r5.1 = None
  ∧ r6.1 = (["admin"], None).
Proof. vm_compute. repeat split. Qed.

(** * Further properties of the methods *)

Section Footprint.

Context {S R : Type} `{!Collaborators S R}.

(** A run only appends to the log, and what it appends are the records of
    its emit calls, in order. *)
Lemma out_run {A : Type} (p : prog A) (w : World S R) :
  out (run p w).2 = (out w ++ emitted (calls p w))%list.
Proof.
  revert w. induction p as [a | c k IH]; intros w; cbn [run calls].
  - cbn. by rewrite app_nil_r.
  - destruct (answer c w) as [x w'] eqn:E. rewrite IH.
    assert (out w' = (out w ++ emitted [c])%list) as ->.
    { destruct c; cbn in E; unfold on_store, on_sys in E;
        repeat match type of E with
               | context [let '(_, _) := ?t in _] => destruct t
               end;
        injection E as <- <-; cbn; by rewrite ?app_nil_r. }
    rewrite <- app_assoc. f_equal.
    unfold emitted. cbn [flat_map]. by rewrite app_nil_r.
Qed.

(** A run that makes no call on the storage interfaces leaves the store
    as it is. *)
Lemma store_run {A : Type} (p : prog A) (w : World S R) :
  List.filter is_store_call (calls p w) = [] → store (run p w).2 = store w.
Proof.
  revert w. induction p as [a | c k IH]; intros w; cbn [run calls]; [done|].
  destruct (answer c w) as [x w'] eqn:E. cbn [List.filter].
  destruct (is_store_call c) eqn:Hc; [discriminate|]. intros Hrest.
  rewrite (IH x w' Hrest).
  destruct c; try discriminate Hc; cbn in E; unfold on_sys in E;
    repeat match type of E with
           | context [let '(_, _) := ?t in _] => destruct t
           end;
    by injection E as <- <-.
Qed.

(** Every list of role names is all within the vocabulary or has a member
    outside it. *)
Lemma roles_known_or_not (roles : list string) :
  Forall (λ role, role ∈ vocabulary) roles
  ∨ ∃ role, role ∈ roles ∧ role ∉ vocabulary.
Proof.
  induction roles as [| r roles [IH | (role & Hin & Hout)]].
  - by left.
  - destruct (decide (r ∈ vocabulary)) as [Hr | Hr].
    + left. by constructor.
    + right. exists r. split; [apply list_elem_of_here|done].
  - right. exists role. split; [by apply list_elem_of_further|done].
Qed.

End Footprint.

Ltac answers :=
  repeat match goal with
         | |- context [UserProvider.User ?e ?s] =>
             destruct (UserProvider.User e s) as [[? [?|]] ?] eqn:?; run_step
         | |- context [UserProvider.GetRoles ?e ?s] =>
             destruct (UserProvider.GetRoles e s) as [[? [?|]] ?] eqn:?; run_step
         | |- context [UserProvider.SetRoles ?e ?r ?s] =>
             destruct (UserProvider.SetRoles e r s) as [[?|] ?] eqn:?; run_step
         | |- context [UserProvider.DeleteUser ?e ?s] =>
             destruct (UserProvider.DeleteUser e s) as [[?|] ?] eqn:?; run_step
         | |- context [UserSaver.SaveUser ?e ?h ?s] =>
             destruct (UserSaver.SaveUser e h s) as [[? [?|]] ?] eqn:?; run_step
         | |- context [AppSaver.SaveApp ?n ?x ?s] =>
             destruct (AppSaver.SaveApp n x s) as [[? [?|]] ?] eqn:?; run_step
         | |- context [AppProvider.App ?i ?s] =>
             destruct (AppProvider.App i s) as [[? [?|]] ?] eqn:?; run_step
         | |- context [Primitives.CompareHashAndPassword ?h ?p] =>
             destruct (Primitives.CompareHashAndPassword h p) as [?|] eqn:?; run_step
         | |- context [Primitives.GenerateFromPassword ?p ?c ?r] =>
             destruct (Primitives.GenerateFromPassword p c r) as [[? [?|]] ?] eqn:?; run_step
         | |- context [Primitives.NewToken ?u ?a ?d ?r] =>
             destruct (Primitives.NewToken u a d r) as [[? [?|]] ?] eqn:?; run_step
         | |- context [errors_Is ?e (Stored ?t)] =>
             destruct (errors_Is e (Stored t)) eqn:?; run_step
         end.

Section LoginMore.

Context {S R : Type} `{!Collaborators S R}.

(** X1.  A login that passes every step returns the token the issuer made
    and no error; apart from its log records it calls, in this order, the
    user fetch for the email, the comparison of the fetched hash with the
    password, the application fetch for the identifier, and the issuer with
    the fetched user, the fetched application and the configured
    time-to-live. *)
Theorem Login_success
    (a : Auth.t) (w : World S R) (email password : string) (appID : Z)
    (u : models.User) (s : S) (app : models.App) (s' : S) (token : string) (r : R) :
  UserProvider.User email (store w) = ((u, None), s) →
  Primitives.CompareHashAndPassword
    (models.PassHash u) (String.list_byte_of_string password) = None →
  AppProvider.App appID s = ((app, None), s') →
  Primitives.NewToken u app (Auth.tokenTTL a) (sys w) = ((token, None), r) →
  (run (Auth.Login a email password appID) w).1 = (token, None)
  ∧ outward (calls (Auth.Login a email password appID) w)
      = [usrProvider_User email;
         bcrypt_CompareHashAndPassword
           (models.PassHash u) (String.list_byte_of_string password);
         appProvider_App appID;
         jwtlocal_NewToken u app (Auth.tokenTTL a)].
Proof.
  intros Hu Hc Ha Ht. unfold Auth.Login. run_step. rewrite Hu. run_step.
  rewrite Hc. run_step. rewrite Ha. run_step. rewrite Ht. by run_step.
Qed.

(** X2.  Login asks for the application only after the password matched
    the hash of the user it fetched, and calls the token issuer only after
    the application was fetched as well: a token is never made for a user
    whose password was not verified, and it is made for the fetched user
    and application with the configured time-to-live. *)
Theorem Login_mints_only_after_verification
    (a : Auth.t) (w : World S R) (email password : string) (appID : Z) :
  (∀ i, appProvider_App i ∈ calls (Auth.Login a email password appID) w →
     i = appID
     ∧ ∃ u s, UserProvider.User email (store w) = ((u, None), s)
         ∧ Primitives.CompareHashAndPassword
             (models.PassHash u) (String.list_byte_of_string password) = None)
  ∧ (∀ u app d,
       jwtlocal_NewToken u app d ∈ calls (Auth.Login a email password appID) w →
       d = Auth.tokenTTL a
       ∧ ∃ s s', UserProvider.User email (store w) = ((u, None), s)
           ∧ Primitives.CompareHashAndPassword
               (models.PassHash u) (String.list_byte_of_string password) = None
           ∧ AppProvider.App appID s = ((app, None), s')).
Proof.
  unfold Auth.Login. run_step. answers.
  all: split; [intros i Hin | intros u' app' d Hin].
  all: repeat (apply elem_of_cons in Hin as [Hin | Hin]; [try discriminate Hin|]).
  all: try by apply not_elem_of_nil in Hin.
  all: simplify_eq.
  all: split; [done|]; eauto 10.
Qed.

End LoginMore.

Section Results.

Context {S R : Type} `{!Collaborators S R}.
Variable storage_text : storage.sentinel → string.

(** X3.  A failure never comes with a value: whenever Login,
    RegisterNewUser, CreateApp or GetRoles returns an error, the other
    component of the result is the zero value (the empty token, the
    identifier 0, the nil slice), whatever the collaborators returned
    beside their own error. *)
Theorem failure_carries_zero_value (a : Auth.t) (w : World S R) :
  (∀ email password appID token err,
     (run (Auth.Login a email password appID) w).1 = (token, Some err) → token = "")
  ∧ (∀ email password id err,
       (run (Auth.RegisterNewUser storage_text a email password) w).1 = (id, Some err) →
       id = 0)
  ∧ (∀ name secret id err,
       (run (Auth.CreateApp storage_text a name secret) w).1 = (id, Some err) → id = 0)
  ∧ (∀ email roles err,
       (run (Auth.GetRoles a email) w).1 = (roles, Some err) → roles = []).
Proof.
  repeat split.
  - intros *. unfold Auth.Login. run_step. answers; congruence.
  - intros *. unfold Auth.RegisterNewUser. run_step. answers; congruence.
  - intros *. unfold Auth.CreateApp. run_step. answers; congruence.
  - intros *. unfold Auth.GetRoles. run_step. answers; congruence.
Qed.

(** X4.  The text of every error a method returns begins with the label of
    the method and ": ".  The labels are auth.Login, auth.RegisterNewUser,
    auth.NewApp for CreateApp, auth.SetRoles, and auth.GetRoles for both
    GetRoles and DeleteUser. *)
Theorem error_text_begins_with_label (a : Auth.t) (w : World S R) :
  (∀ email password appID err,
     (run (Auth.Login a email password appID) w).1.2 = Some err →
     ∃ rest, Error storage_text err = "auth.Login: " ++ rest)
  ∧ (∀ email password err,
       (run (Auth.RegisterNewUser storage_text a email password) w).1.2 = Some err →
       ∃ rest, Error storage_text err = "auth.RegisterNewUser: " ++ rest)
  ∧ (∀ name secret err,
       (run (Auth.CreateApp storage_text a name secret) w).1.2 = Some err →
       ∃ rest, Error storage_text err = "auth.NewApp: " ++ rest)
  ∧ (∀ email roles err,
       (run (Auth.SetRoles a email roles) w).1 = Some err →
       ∃ rest, Error storage_text err = "auth.SetRoles: " ++ rest)
  ∧ (∀ email err,
       (run (Auth.GetRoles a email) w).1.2 = Some err →
       ∃ rest, Error storage_text err = "auth.GetRoles: " ++ rest)
  ∧ (∀ email err,
       (run (Auth.DeleteUser a email) w).1 = Some err →
       ∃ rest, Error storage_text err = "auth.GetRoles: " ++ rest).
Proof.
  repeat split.
  - intros *. unfold Auth.Login. run_step.
    answers; intros [= <-]; cbn; eauto.
  - intros *. unfold Auth.RegisterNewUser. run_step.
    answers; intros [= <-]; cbn; eauto.
  - intros *. unfold Auth.CreateApp. run_step.
    answers; intros [= <-]; cbn; eauto.
  - intros email roles err. unfold Auth.SetRoles.
    destruct (roles_known_or_not roles) as [Hall | (role & Hin & Hout)].
    + rewrite range_roles_known by done. run_step.
      answers; intros [= <-]; cbn; eauto.
    + rewrite (range_roles_unknown _ _ _ role) by done. run_step.
      intros [= <-]. cbn. eauto.
  - intros *. unfold Auth.GetRoles. run_step.
    answers; intros [= <-]; cbn; eauto.
  - intros *. unfold Auth.DeleteUser. run_step.
    answers; intros [= <-]; cbn; eauto.
Qed.

(** X5.  When the hash cannot be generated, RegisterNewUser returns zero
    and the error of bcrypt under its label, makes no call on the storage
    interfaces and leaves the store as it is. *)
Theorem RegisterNewUser_hash_failure
    (a : Auth.t) (w : World S R) (email password : string)
    (passHash : list byte) (e : error) (r : R) :
  Primitives.GenerateFromPassword
    (String.list_byte_of_string password) bcrypt.DefaultCost (sys w)
    = ((passHash, Some e), r) →
  (run (Auth.RegisterNewUser storage_text a email password) w).1
    = (0, Some (Wrapf "auth.RegisterNewUser" e))
  ∧ List.filter is_store_call
      (calls (Auth.RegisterNewUser storage_text a email password) w) = []
  ∧ store (run (Auth.RegisterNewUser storage_text a email password) w).2 = store w.
Proof.
  intros Hg.
  assert (List.filter is_store_call
            (calls (Auth.RegisterNewUser storage_text a email password) w) = []) as Hnone.
  { unfold Auth.RegisterNewUser. run_step. rewrite Hg. by run_step. }
  split; [|split; [done|by apply store_run]].
  unfold Auth.RegisterNewUser. run_step. rewrite Hg. by run_step.
Qed.

(** X6.  When the hash is generated, the calls of RegisterNewUser apart
    from its log records are the generation of a hash from the password at
    the default cost and then one save of the email with that hash: the
    store is handed the hash bcrypt returned, not the password, and is
    called once whatever it answers. *)
Theorem RegisterNewUser_saves_hash_once
    (a : Auth.t) (w : World S R) (email password : string)
    (passHash : list byte) (r : R) :
  Primitives.GenerateFromPassword
    (String.list_byte_of_string password) bcrypt.DefaultCost (sys w)
    = ((passHash, None), r) →
  outward (calls (Auth.RegisterNewUser storage_text a email password) w)
    = [bcrypt_GenerateFromPassword (String.list_byte_of_string password) 10;
       usrSaver_SaveUser email passHash].
Proof.
  intros Hg. unfold Auth.RegisterNewUser. run_step. rewrite Hg. run_step.
  by answers.
Qed.

(** X7.  CreateApp returns what the save of the application decides: the
    identifier the store assigned on success, zero and ErrAppExist under
    the label auth.NewApp when the store's error is its already-exists
    value, zero and the store's own error under that label otherwise; and
    in every case its one call on the storage interfaces is the save of
    the name and the secret as given. *)
Theorem CreateApp_results
    (a : Auth.t) (w : World S R) (name secret : string)
    (id : Z) (res : option error) (s : S) :
  AppSaver.SaveApp name secret (store w) = ((id, res), s) →
  (run (Auth.CreateApp storage_text a name secret) w).1
    = match res with
      | None => (id, None)
      | Some e =>
          (0, Some (Wrapf "auth.NewApp"
                      (if errors_Is e storage.ErrAppExist then Own ErrAppExist else e)))
      end
  ∧ List.filter is_store_call (calls (Auth.CreateApp storage_text a name secret) w)
      = [appSaver_SaveApp name secret]
  ∧ store (run (Auth.CreateApp storage_text a name secret) w).2 = s.
Proof.
  intros Hs. unfold Auth.CreateApp. run_step. rewrite Hs. run_step.
  destruct res as [e|]; run_step; [|done]. by destruct (errors_Is e _).
Qed.

End Results.

Section Records.

Context {S R : Type} `{!Collaborators S R}.
Variable storage_text : storage.sentinel → string.


(** X9.  Every record written by Login, RegisterNewUser, SetRoles, GetRoles
    and DeleteUser goes to the logger of the service and carries, after the
    attributes bound to that logger, the label of the method and the email
    and no other attribute; the label of DeleteUser is auth.GetRoles. *)
Theorem methods_log_to_service_logger (a : Auth.t) (w : World S R) :
  (∀ email password appID,
     Forall (service_record a "auth.Login" email)
       (emitted (calls (Auth.Login a email password appID) w)))
  ∧ (∀ email password,
       Forall (service_record a "auth.RegisterNewUser" email)
         (emitted (calls (Auth.RegisterNewUser storage_text a email password) w)))
  ∧ (∀ email roles,
       Forall (service_record a "auth.SetRoles" email)
         (emitted (calls (Auth.SetRoles a email roles) w)))
  ∧ (∀ email,
       Forall (service_record a "auth.GetRoles" email)
         (emitted (calls (Auth.GetRoles a email) w)))
  ∧ (∀ email,
       Forall (service_record a "auth.GetRoles" email)
         (emitted (calls (Auth.DeleteUser a email) w))).
Proof.
  unfold service_record. repeat split.
  - intros *. unfold Auth.Login. run_step.
    answers; repeat constructor; cbn; by rewrite ?app_nil_r.
  - intros *. unfold Auth.RegisterNewUser. run_step.
    answers; repeat constructor; cbn; by rewrite ?app_nil_r.
  - intros email roles. unfold Auth.SetRoles.
    destruct (roles_known_or_not roles) as [Hall | (role & Hin & Hout)].
    + rewrite range_roles_known by done. run_step.
      answers; repeat constructor; cbn; by rewrite ?app_nil_r.
    + rewrite (range_roles_unknown _ _ _ role) by done. run_step.
      repeat constructor; cbn; by rewrite ?app_nil_r.
  - intros *. unfold Auth.GetRoles. run_step.
    answers; repeat constructor; cbn; by rewrite ?app_nil_r.
  - intros *. unfold Auth.DeleteUser. run_step.
    answers; repeat constructor; cbn; by rewrite ?app_nil_r.
Qed.

(** X10.  GetRoles makes one call on the storage interfaces, the read of
    the roles of the email, and leaves the store as that call left it; on
    success it returns the list the store returned, as it is. *)
Theorem GetRoles_results
    (a : Auth.t) (w : World S R) (email : string)
    (roles : list string) (res : option error) (s : S) :
  UserProvider.GetRoles email (store w) = ((roles, res), s) →
  (run (Auth.GetRoles a email) w).1
    = match res with
      | None => (roles, None)
      | Some e =>
          ([], Some (Wrapf "auth.GetRoles"
                       (if errors_Is e storage.ErrUserNotFound
                        then Own ErrInvalidCredentials else e)))
      end
  ∧ List.filter is_store_call (calls (Auth.GetRoles a email) w)
      = [usrProvider_GetRoles email]
  ∧ store (run (Auth.GetRoles a email) w).2 = s.
Proof.
  intros Hg. unfold Auth.GetRoles. run_step. rewrite Hg. run_step.
  destruct res as [e|]; run_step; [|done]. by destruct (errors_Is e _).
Qed.

(** X11.  DeleteUser makes one call on the storage interfaces, the delete
    of the email.  When the store reports no error it returns no error and
    writes no log record; when the store fails it writes one record at
    level Error. *)
Theorem DeleteUser_results
    (a : Auth.t) (w : World S R) (email : string) (res : option error) (s : S) :
  UserProvider.DeleteUser email (store w) = (res, s) →
  List.filter is_store_call (calls (Auth.DeleteUser a email) w)
    = [usrProvider_DeleteUser email]
  ∧ store (run (Auth.DeleteUser a email) w).2 = s
  ∧ match res with
    | None =>
        (run (Auth.DeleteUser a email) w).1 = None
        ∧ out (run (Auth.DeleteUser a email) w).2 = out w
    | Some e =>
        (run (Auth.DeleteUser a email) w).1
          = Some (Wrapf "auth.GetRoles"
                    (if errors_Is e storage.ErrUserNotFound
                     then Own ErrInvalidCredentials else e))
        ∧ ∃ r, out (run (Auth.DeleteUser a email) w).2 = (out w ++ [r])%list
            ∧ slog.level r = slog.LevelError
    end.
Proof.
  intros Hd. rewrite !out_run. unfold Auth.DeleteUser. run_step. rewrite Hd. run_step.
  destruct res as [e|]; run_step.
  - destruct (errors_Is e _); run_step; repeat split; eauto.
  - cbn. by rewrite app_nil_r.
Qed.

(** X12.  SetRoles reaches the store exactly when every requested role is
    in {admin, user, manager}: then its one storage call is set-roles with
    the email and the list; with any other list it makes no storage call
    at all.  The empty list counts as all known. *)
Theorem SetRoles_reaches_store_iff
    (a : Auth.t) (w : World S R) (email : string) (roles : list string) :
  (List.filter is_store_call (calls (Auth.SetRoles a email roles) w)
     = [usrProvider_SetRoles email roles]
   ↔ Forall (λ role, role ∈ vocabulary) roles)
  ∧ (List.filter is_store_call (calls (Auth.SetRoles a email roles) w) = []
     ↔ ∃ role, role ∈ roles ∧ role ∉ vocabulary).
Proof.
  assert (Forall (λ role, role ∈ vocabulary) roles →
          List.filter is_store_call (calls (Auth.SetRoles a email roles) w)
            = [usrProvider_SetRoles email roles]) as Hknown.
  { intros Hall. unfold Auth.SetRoles. rewrite range_roles_known by done.
    run_step. by answers. }
  assert ((∃ role, role ∈ roles ∧ role ∉ vocabulary) →
          List.filter is_store_call (calls (Auth.SetRoles a email roles) w) = [])
    as Hunknown.
  { intros (role & Hin & Hout). unfold Auth.SetRoles.
    rewrite (range_roles_unknown _ _ _ role) by done. by run_step. }
  split; (split; [|done]); intros Hcalls.
  - destruct (roles_known_or_not roles) as [Hall | Hsome]; [done|].
    rewrite (Hunknown Hsome) in Hcalls. discriminate.
  - destruct (roles_known_or_not roles) as [Hall | Hsome]; [|done].
    rewrite (Hknown Hall) in Hcalls. discriminate.
Qed.

End Records.

Section Config.

Context {E : Type} (IsNotExist : E → bool) (ErrorText : E → string).
Implicit Types (p : config.Process E) (cfg : config.Config).

Ltac config_step :=
  cbn [config.run config.calls config.answer config.bind config.perform
       config.MustLoad config.fetchConfig].

Ltac in_calls H :=
  repeat (apply elem_of_cons in H as [H | H];
          [first [discriminate H | by simplify_eq] |]);
  by apply not_elem_of_nil in H.

(** In a process where the flag registers and the command line parses,
    MustLoad is: the two flag calls, the read of CONFIG_PATH when the flag
    is absent or empty, and the rest on the resolved path. *)
Lemma MustLoad_parsed p (given : option string) :
  config.StringVar p "config" = None →
  config.Parse p = config.Parsed given →
  config.run p (config.MustLoad IsNotExist ErrorText)
    = config.run p (config.load IsNotExist ErrorText (config.resolved p given))
  ∧ config.calls p (config.MustLoad IsNotExist ErrorText)
    = (config.flag_StringVar "config" "" "path to config file" :: config.flag_Parse
       :: (if String.eqb (default "" given) "" then [config.os_Getenv "CONFIG_PATH"] else [])
       ++ config.calls p (config.load IsNotExist ErrorText (config.resolved p given)))%list.
Proof.
  intros Hreg Hparse. unfold config.resolved. config_step.
  rewrite Hreg. config_step. rewrite Hparse. config_step.
  destruct (String.eqb (default "" given) ""); by config_step.
Qed.

Lemma calls_load p (path : string) :
  config.calls p (config.load IsNotExist ErrorText path)
    = if String.eqb path "" then []
      else config.os_Stat path
           :: (if match config.Stat p path with
                  | Some err => IsNotExist err
                  | None => false
                  end
               then []
               else [config.cleanenv_ReadConfig path config.zero]).
Proof.
  unfold config.load. destruct (String.eqb path ""); [done|]. config_step.
  destruct (match config.Stat p path with Some _ => _ | None => _ end); [done|].
  config_step. by destruct (config.ReadConfig p path config.zero) as [cfg [err|]].
Qed.

(** X13.  In a process where the flag registers and the command line
    parses: when the flag -config has a non-empty value, MustLoad never
    calls [os.Getenv], and every call of [os.Stat] and of
    [cleanenv.ReadConfig] it makes is on that value; when the flag is
    absent or empty, it reads the variable CONFIG_PATH and every such call
    is on the value of that variable. *)
Theorem MustLoad_flag_before_environment p (given : option string) :
  config.StringVar p "config" = None →
  config.Parse p = config.Parsed given →
  (default "" given ≠ "" →
     ∀ key, config.os_Getenv key ∉ config.calls p (config.MustLoad IsNotExist ErrorText))
  ∧ (default "" given = "" →
     config.os_Getenv "CONFIG_PATH"
       ∈ config.calls p (config.MustLoad IsNotExist ErrorText))
  ∧ (∀ name,
       config.os_Stat name ∈ config.calls p (config.MustLoad IsNotExist ErrorText) →
       name = if String.eqb (default "" given) ""
              then config.Getenv p "CONFIG_PATH" else default "" given)
  ∧ (∀ path cfg,
       config.cleanenv_ReadConfig path cfg
         ∈ config.calls p (config.MustLoad IsNotExist ErrorText) →
       cfg = config.zero
       ∧ path = if String.eqb (default "" given) ""
                then config.Getenv p "CONFIG_PATH" else default "" given).
Proof.
  intros Hreg Hparse.
  destruct (MustLoad_parsed p given Hreg Hparse) as [_ ->]. rewrite calls_load.
  unfold config.resolved.
  destruct (String.eqb (default "" given) "") eqn:Eflag.
  - apply String.eqb_eq in Eflag. split; [by intros []|].
    split; [intros _; do 2 apply list_elem_of_further; apply list_elem_of_here|].
    destruct (String.eqb (config.Getenv p "CONFIG_PATH") "");
      [|destruct (match config.Stat p _ with Some _ => _ | None => _ end)];
      cbn [app]; (split; [intros name Hin | intros path cfg Hin]); in_calls Hin.
  - rewrite ?Eflag.
    split; [intros _ key Hin|split; [by intros Hempty; rewrite Hempty in Eflag|]].
    + destruct (match config.Stat p _ with Some _ => _ | None => _ end);
        cbn [app] in Hin; in_calls Hin.
    + destruct (match config.Stat p _ with Some _ => _ | None => _ end);
        cbn [app]; (split; [intros name Hin | intros path cfg Hin]); in_calls Hin.
Qed.

(** X14.  In a process where the flag registers, MustLoad panics with
    "config path is empty" exactly when the command line parses, the flag
    -config is absent or empty, and the variable CONFIG_PATH is empty or
    unset. *)
Theorem MustLoad_empty_path_iff p :
  config.StringVar p "config" = None →
  config.run p (config.MustLoad IsNotExist ErrorText)
    = config.Panics "config path is empty"
  ↔ ∃ given, config.Parse p = config.Parsed given
      ∧ default "" given = ""
      ∧ config.Getenv p "CONFIG_PATH" = "".
Proof.
  intros Hreg. destruct (config.Parse p) as [given | status] eqn:Hparse.
  - destruct (MustLoad_parsed p given Hreg Hparse) as [-> _].
    unfold config.resolved, config.load.
    destruct (String.eqb (default "" given) "") eqn:Eflag.
    + apply String.eqb_eq in Eflag.
      destruct (String.eqb (config.Getenv p "CONFIG_PATH") "") eqn:Eenv.
      * apply String.eqb_eq in Eenv. split; [intros _; by exists given|done].
      * apply String.eqb_neq in Eenv. config_step. split.
        { destruct (match config.Stat p _ with Some _ => _ | None => _ end);
            [cbn; discriminate|]. config_step.
          destruct (config.ReadConfig p _ _) as [cfg [err|]]; cbn; discriminate. }
        intros (given' & [= <-] & _ & Henv). contradiction.
    + apply String.eqb_neq in Eflag. rewrite ?Eflag.
      destruct (String.eqb (default "" given) "") eqn:Eflag';
        [by apply String.eqb_eq in Eflag'|]. config_step. split.
      { destruct (match config.Stat p _ with Some _ => _ | None => _ end);
          [cbn; discriminate|]. config_step.
        destruct (config.ReadConfig p _ _) as [cfg [err|]]; cbn; discriminate. }
      intros (given' & [= <-] & Hempty & _). contradiction.
  - config_step. rewrite Hreg. config_step. rewrite Hparse. config_step. split.
    + discriminate.
    + by intros (given & [=] & _).
Qed.

(** X15.  MustLoad returns a configuration exactly when the flag
    registers, the command line parses, the resolved path is not empty,
    [os.Stat] does not report the file as missing, and
    [cleanenv.ReadConfig] fills the zero configuration without error; it
    returns what ReadConfig filled.  A Stat error of another kind does not
    stop it. *)
Theorem MustLoad_returns_iff p cfg :
  config.run p (config.MustLoad IsNotExist ErrorText) = config.Returns cfg
  ↔ config.StringVar p "config" = None
    ∧ ∃ given, config.Parse p = config.Parsed given
        ∧ config.resolved p given ≠ ""
        ∧ (∀ err, config.Stat p (config.resolved p given) = Some err →
             IsNotExist err = false)
        ∧ config.ReadConfig p (config.resolved p given) config.zero = (cfg, None).
Proof.
  assert (∀ path, config.run p (config.load IsNotExist ErrorText path) = config.Returns cfg
                  ↔ path ≠ ""
                    ∧ (∀ err, config.Stat p path = Some err → IsNotExist err = false)
                    ∧ config.ReadConfig p path config.zero = (cfg, None)) as Hload.
  { intros path. unfold config.load. split.
    - destruct (String.eqb path "") eqn:Ep; [discriminate|].
      apply String.eqb_neq in Ep. config_step.
      destruct (config.Stat p path) as [err|] eqn:Es.
      + destruct (IsNotExist err) eqn:Ei; [discriminate|]. config_step.
        destruct (config.ReadConfig p _ _) as [c [e|]]; [discriminate|].
        intros [= ->]. repeat split; [done|]. by intros ? [= <-].
      + config_step. destruct (config.ReadConfig p _ _) as [c [e|]]; [discriminate|].
        intros [= ->]. repeat split; [done|]. discriminate.
    - intros (Hp & Hstat & Hread). apply String.eqb_neq in Hp. rewrite Hp.
      config_step.
      destruct (config.Stat p path) as [err|]; [rewrite (Hstat err eq_refl)|];
        config_step; by rewrite Hread. }
  destruct (config.StringVar p "config") as [v|] eqn:Hreg.
  { config_step. rewrite Hreg. config_step. split; [discriminate|by intros [[=] _]]. }
  destruct (config.Parse p) as [given | status] eqn:Hparse.
  - destruct (MustLoad_parsed p given Hreg Hparse) as [-> _]. rewrite Hload. split.
    + intros H. split; [done|]. by exists given.
    + by intros (_ & given' & [= <-] & H).
  - config_step. rewrite Hreg. config_step. rewrite Hparse. config_step.
    split; [discriminate|]. by intros (_ & given & [=] & _).
Qed.

(** X16.  On the two ways the flag package ends the call, MustLoad ends
    the same way and goes no further: when the registration of the flag
    panics, MustLoad panics with the same value after that one call; when
    [flag.Parse] exits the process, MustLoad ends in that exit, and neither
    the environment nor the file system has been looked at. *)
Theorem MustLoad_stops_in_flag_package p :
  (∀ v, config.StringVar p "config" = Some v →
     config.run p (config.MustLoad IsNotExist ErrorText) = config.Panics v
     ∧ config.calls p (config.MustLoad IsNotExist ErrorText)
       = [config.flag_StringVar "config" "" "path to config file"])
  ∧ (∀ status, config.StringVar p "config" = None →
       config.Parse p = config.Exited status →
       config.run p (config.MustLoad IsNotExist ErrorText) = config.Exits status
       ∧ config.calls p (config.MustLoad IsNotExist ErrorText)
         = [config.flag_StringVar "config" "" "path to config file"; config.flag_Parse]).
Proof.
  split.
  - intros v Hreg. config_step. by rewrite Hreg.
  - intros status Hreg Hparse. config_step. rewrite Hreg. config_step. by rewrite Hparse.
Qed.

End Config.

(** * Instances of the further properties *)

Lemma roles_all_known : Forall (λ role, role ∈ vocabulary) ["user"; "admin"; "user"].
Proof. repeat constructor; apply (bool_decide_unpack _); vm_compute; exact I. Qed.

(** X1 on the store with one user and one application. *)
Lemma Login_success_witness :
  (run (Auth.Login svc "a@x.com" "pw123" 1) (refstore.world one_user)).1
    = ("a@x.com@shop", None)
  ∧ outward (calls (Auth.Login svc "a@x.com" "pw123" 1) (refstore.world one_user))
      = [usrProvider_User "a@x.com";
         bcrypt_CompareHashAndPassword
           (refstore.prefix ++ String.list_byte_of_string "pw123")%list
           (String.list_byte_of_string "pw123");
         appProvider_App 1;
         jwtlocal_NewToken (refstore.User "a@x.com" one_user).1.1
           (models.mkApp 1 "shop" "s3cret") 3600].
Proof.
  exact (Login_success svc (refstore.world one_user) "a@x.com" "pw123" 1
           (refstore.User "a@x.com" one_user).1.1 one_user
           (models.mkApp 1 "shop" "s3cret") one_user "a@x.com@shop" tt
           eq_refl eq_refl eq_refl eq_refl).
Defined.

(** X2 on the same store: the token call of a good login. *)
Lemma Login_mints_only_after_verification_witness :
  3600 = Auth.tokenTTL svc
  ∧ ∃ s s',
      refstore.User "a@x.com" one_user
        = (((refstore.User "a@x.com" one_user).1.1, None), s)
      ∧ refstore.CompareHashAndPassword
          (refstore.prefix ++ String.list_byte_of_string "pw123")%list
          (String.list_byte_of_string "pw123") = None
      ∧ refstore.App 1 s = ((models.mkApp 1 "shop" "s3cret", None), s').
Proof.
  refine (proj2 (Login_mints_only_after_verification svc (refstore.world one_user)
                   "a@x.com" "pw123" 1)
            (refstore.User "a@x.com" one_user).1.1 (models.mkApp 1 "shop" "s3cret") 3600 _).
  vm_compute. do 5 apply list_elem_of_further. apply list_elem_of_here.
Defined.

(** X3 on the store that is out of reach, which answers a fetch with an
    error beside a record. *)
Lemma failure_carries_zero_value_witness :
  (run (Auth.Login svc "a@x.com" "pw123" 1) outage.world).1.1 = ""
  ∧ (run (Auth.GetRoles svc "a@x.com") outage.world).1.1 = [].
Proof.
  destruct (failure_carries_zero_value no_text svc outage.world) as (Hl & _ & _ & Hg).
  split.
  - exact (Hl "a@x.com" "pw123" 1 _ (Wrapf "auth.Login" outage.failure) eq_refl).
  - exact (Hg "a@x.com" _ (Wrapf "auth.GetRoles" outage.failure) eq_refl).
Defined.

(** X4 on the store with one user: deleting an email that is not stored. *)
Lemma error_text_begins_with_label_witness :
  ∃ rest,
    Error no_text (Wrapf "auth.GetRoles" ErrInvalidCredentials) = "auth.GetRoles: " ++ rest.
Proof.
  destruct (error_text_begins_with_label no_text svc (refstore.world one_user))
    as (_ & _ & _ & _ & _ & Hd).
  exact (Hd "b@x.com" (Wrapf "auth.GetRoles" ErrInvalidCredentials) eq_refl).
Defined.

(** X5 with a bcrypt that refuses the password. *)
Lemma RegisterNewUser_hash_failure_witness :
  (run (Auth.RegisterNewUser no_text svc "a@x.com" "pw123") nohash.world).1
    = (0, Some (Wrapf "auth.RegisterNewUser" nohash.failure))
  ∧ List.filter is_store_call
      (calls (Auth.RegisterNewUser no_text svc "a@x.com" "pw123") nohash.world) = []
  ∧ store (run (Auth.RegisterNewUser no_text svc "a@x.com" "pw123") nohash.world).2
      = outage.down.
Proof.
  exact (RegisterNewUser_hash_failure no_text svc nohash.world "a@x.com" "pw123"
           [] nohash.failure nohash.idle eq_refl).
Defined.

(** X6 on the empty store. *)
Lemma RegisterNewUser_saves_hash_once_witness :
  outward (calls (Auth.RegisterNewUser no_text svc "a@x.com" "pw123")
             (refstore.world refstore.empty))
    = [bcrypt_GenerateFromPassword (String.list_byte_of_string "pw123") 10;
       usrSaver_SaveUser "a@x.com"
         (refstore.prefix ++ String.list_byte_of_string "pw123")%list].
Proof.
  exact (RegisterNewUser_saves_hash_once no_text svc (refstore.world refstore.empty)
           "a@x.com" "pw123"
           (refstore.prefix ++ String.list_byte_of_string "pw123")%list tt eq_refl).
Defined.

(** X7 on the store with one application: a second name, and the same
    name again. *)
Lemma CreateApp_results_witness :
  (run (Auth.CreateApp no_text svc "forum" "k3y") (refstore.world one_user)).1 = (2, None)
  ∧ (run (Auth.CreateApp no_text svc "shop" "k3y") (refstore.world one_user)).1
    = (0, Some (Wrapf "auth.NewApp" ErrAppExist))
  ∧ List.filter is_store_call
      (calls (Auth.CreateApp no_text svc "shop" "k3y") (refstore.world one_user))
    = [appSaver_SaveApp "shop" "k3y"].
Proof.
  split; [|split].
  - exact (proj1 (CreateApp_results no_text svc (refstore.world one_user) "forum" "k3y"
                    2 None (refstore.SaveApp "forum" "k3y" one_user).2 eq_refl)).
  - exact (proj1 (CreateApp_results no_text svc (refstore.world one_user) "shop" "k3y"
                    0 (Some (Stored storage.ErrAppExist)) one_user eq_refl)).
  - exact (proj1 (proj2 (CreateApp_results no_text svc (refstore.world one_user)
                           "shop" "k3y" 0 (Some (Stored storage.ErrAppExist)) one_user
                           eq_refl))).
Defined.

(** X10 on the store with one user, who has no role yet. *)
Lemma GetRoles_results_witness :
  (run (Auth.GetRoles svc "a@x.com") (refstore.world one_user)).1 = ([], None)
  ∧ (run (Auth.GetRoles svc "b@x.com") (refstore.world one_user)).1
    = ([], Some (Wrapf "auth.GetRoles" ErrInvalidCredentials))
  ∧ List.filter is_store_call (calls (Auth.GetRoles svc "b@x.com") (refstore.world one_user))
    = [usrProvider_GetRoles "b@x.com"].
Proof.
  split; [|split].
  - exact (proj1 (GetRoles_results svc (refstore.world one_user) "a@x.com"
                    [] None one_user eq_refl)).
  - exact (proj1 (GetRoles_results svc (refstore.world one_user) "b@x.com"
                    [] (Some (Stored storage.ErrUserNotFound)) one_user eq_refl)).
  - exact (proj1 (proj2 (GetRoles_results svc (refstore.world one_user) "b@x.com"
                           [] (Some (Stored storage.ErrUserNotFound)) one_user eq_refl))).
Defined.

(** X11 on the store with one user: the delete succeeds and the log stays
    empty. *)
Lemma DeleteUser_results_witness :
  List.filter is_store_call (calls (Auth.DeleteUser svc "a@x.com") (refstore.world one_user))
    = [usrProvider_DeleteUser "a@x.com"]
  ∧ (run (Auth.DeleteUser svc "a@x.com") (refstore.world one_user)).1 = None
  ∧ out (run (Auth.DeleteUser svc "a@x.com") (refstore.world one_user)).2 = [].
Proof.
  destruct (@DeleteUser_results _ _ refstore.collaborators
              svc (refstore.world one_user) "a@x.com" None
              (refstore.DeleteUser "a@x.com" one_user).2 eq_refl) as (Hc & _ & Hr & Ho).
  split; [exact Hc|]. split; [exact Hr|exact Ho].
Defined.

(** X12 on the store with one user: a list with a repeated known role, and
    a list with an unknown one. *)
Lemma SetRoles_reaches_store_iff_witness :
  List.filter is_store_call
    (calls (Auth.SetRoles svc "a@x.com" ["user"; "admin"; "user"]) (refstore.world one_user))
    = [usrProvider_SetRoles "a@x.com" ["user"; "admin"; "user"]]
  ∧ List.filter is_store_call
      (calls (Auth.SetRoles svc "a@x.com" ["admin"; "root"]) (refstore.world one_user)) = [].
Proof.
  split.
  - apply (proj1 (SetRoles_reaches_store_iff svc (refstore.world one_user) "a@x.com"
                    ["user"; "admin"; "user"])).
    exact roles_all_known.
  - apply (proj2 (SetRoles_reaches_store_iff svc (refstore.world one_user) "a@x.com"
                    ["admin"; "root"])).
    exists "root". exact root_is_unknown.
Defined.

(** X13: the flag names local.yaml and the variable names another file;
    then no flag and the variable names local.yaml. *)
Lemma MustLoad_flag_before_environment_witness :
  (config.os_Getenv "CONFIG_PATH"
     ∉ config.calls (config.example (config.Parsed (Some "local.yaml")) "other.yaml")
         (config.MustLoad config.missing id))
  ∧ (config.os_Getenv "CONFIG_PATH"
       ∈ config.calls (config.example (config.Parsed None) "local.yaml")
           (config.MustLoad config.missing id)).
Proof.
  split.
  - refine (proj1 (MustLoad_flag_before_environment config.missing id
                     (config.example (config.Parsed (Some "local.yaml")) "other.yaml")
                     (Some "local.yaml") eq_refl eq_refl) _ "CONFIG_PATH").
    discriminate.
  - refine (proj1 (proj2 (MustLoad_flag_before_environment config.missing id
                            (config.example (config.Parsed None) "local.yaml")
                            None eq_refl eq_refl)) eq_refl).
Defined.

(** X14: neither the flag nor the variable names a file. *)
Lemma MustLoad_empty_path_iff_witness :
  config.run (config.example (config.Parsed None) "") (config.MustLoad config.missing id)
    = config.Panics "config path is empty".
Proof.
  apply (proj2 (MustLoad_empty_path_iff config.missing id
                  (config.example (config.Parsed None) "") eq_refl)).
  exists None. repeat split.
Defined.

(** X15: the variable names local.yaml, which reads well. *)
Lemma MustLoad_returns_iff_witness :
  config.run (config.example (config.Parsed None) "local.yaml")
    (config.MustLoad config.missing id) = config.Returns config.local.
Proof.
  apply (proj2 (MustLoad_returns_iff config.missing id
                  (config.example (config.Parsed None) "local.yaml") config.local)).
  split; [reflexivity|]. exists None.
  split; [reflexivity|]. split; [discriminate|]. split; [discriminate|reflexivity].
Defined.

(** X16: a command line that is rejected, and a flag set on which the name
    config is already registered. *)
Lemma MustLoad_stops_in_flag_package_witness :
  config.run (config.example (config.Exited 2) "local.yaml")
    (config.MustLoad config.missing id) = config.Exits 2
  ∧ config.run
      (config.mkProcess (λ _, Some "sso flag redefined: config") (config.Parsed None)
         (λ _, "local.yaml") (λ _, None) (λ _ cfg, (cfg, @None string)))
      (config.MustLoad config.missing id)
    = config.Panics "sso flag redefined: config".
Proof.
  split.
  - exact (proj1 (proj2 (MustLoad_stops_in_flag_package config.missing id
                           (config.example (config.Exited 2) "local.yaml"))
                    2 eq_refl eq_refl)).
  - exact (proj1 (proj1 (MustLoad_stops_in_flag_package config.missing id
                           (config.mkProcess (λ _, Some "sso flag redefined: config")
                              (config.Parsed None) (λ _, "local.yaml") (λ _, None)
                              (λ _ cfg, (cfg, @None string))))
                    "sso flag redefined: config" eq_refl)).
Defined.
